(** * peewee-generics: pagination metadata and partial update

    A shallow embedding of the two pieces of [peewee_generics] that carry
    invariants:

    - [GenericComponent.add_metadata] and [GenericComponent.get_items]
      (component.py) together with [GenericSchema.wrap_data] (schema.py):
      pagination metadata and the response envelope;
    - [GenericModel.update_instance] (model.py): partial update of a model
      instance.

    Python values are a small tagged union, Python dicts that are iterated or
    serialised are insertion-ordered association lists, the field storage of a
    model instance is a finite map, and exceptions are an explicit result
    type.

    The development then goes on to the code around these: the rest of
    [GenericSchema] ([__init__], [_strip_data], [for_serialization],
    [make_instance]), the item operations of the component ([get_item],
    [create_item], [update_item], [delete_item]) and the list view of
    blueprint.py ([generate_context], [read_many]). *)

From Stdlib Require Import ZArith Bool List Lia.
From stdpp Require Import gmap strings list fin_maps.
Import ListNotations.

Local Open Scope string_scope.
Local Open Scope Z_scope.

(** ** Python values *)

#[local] Set Warnings "-register-all".

(** The values that contexts, request data and records hold here: [None],
    [bool], [int], [str], lists and dicts with string keys.  Floats and other
    objects are not among them. *)
Inductive pyval : Type :=
| PNone
| PBool (b : bool)
| PInt (z : Z)
| PStr (s : string)
| PList (l : list pyval)
| PDict (d : list (string * pyval)).

(** A [dict] with string keys, in insertion order. *)
Abbreviation pydict := (list (string * pyval)).

(** Python's truth value testing, [bool(v)]. *)
Definition truthy (v : pyval) : bool :=
  match v with
  | PNone => false
  | PBool b => b
  | PInt z => negb (z =? 0)
  | PStr s => negb (String.eqb s "")
  | PList l => match l with [] => false | _ => true end
  | PDict d => match d with [] => false | _ => true end
  end.

(** [d.get(key)]: [None] of [option] stands for a missing key. *)
Fixpoint dict_get (key : string) (d : pydict) : option pyval :=
  match d with
  | [] => None
  | (k, v) :: rest => if String.eqb key k then Some v else dict_get key rest
  end.

(** [d.get(key, default)]. *)
Definition dict_get_default (d : pydict) (key : string) (default : pyval) : pyval :=
  match dict_get key d with
  | Some v => v
  | None => default
  end.

(** [key in d]. *)
Definition dict_has (key : string) (d : pydict) : bool :=
  match dict_get key d with
  | Some _ => true
  | None => false
  end.

(** [d[key] = v]: an existing key keeps its position, a new one is appended. *)
Fixpoint dict_set (key : string) (v : pyval) (d : pydict) : pydict :=
  match d with
  | [] => [(key, v)]
  | (k, w) :: rest =>
      if String.eqb key k then (k, v) :: rest else (k, w) :: dict_set key v rest
  end.

(** [list(d.keys())]. *)
Definition dict_keys (d : pydict) : list string := map fst d.

(** ** Exceptions and results *)

(** The exceptions the modelled code can raise.  [AttributeError] carries the
    offending attribute name: it comes either from [getattr] on a class that
    has no such attribute or from the explicit [raise] of [update_instance].
    [TypeError] is what Python's arithmetic and comparisons raise on operands
    that are not numbers. *)
Inductive exn : Type :=
| AttributeError (key : string)
| TypeError.

Inductive outcome (A : Type) : Type :=
| Returned (a : A)
| Raised (e : exn).

Arguments Returned {A} a.
Arguments Raised {A} e.

Definition bind {A B : Type} (m : outcome A) (k : A -> outcome B) : outcome B :=
  match m with
  | Returned a => k a
  | Raised e => Raised e
  end.

Notation "'let*' x ':=' m 'in' k" := (bind m (fun x => k))
  (at level 10, x pattern, m at level 100, k at level 200).

Definition raises {A : Type} (m : outcome A) : Prop := exists e, m = Raised e.

(** An operand used as an integer: [bool] is a subclass of [int]. *)
Definition as_int (v : pyval) : outcome Z :=
  match v with
  | PInt z => Returned z
  | PBool b => Returned (Z.b2z b)
  | _ => Raised TypeError
  end.

(** [v > n] for an [int] literal [n]. *)
Definition py_gt (v : pyval) (n : Z) : outcome bool :=
  let* z := as_int v in Returned (n <? z).

(** ** The query collaborator (peewee's [ModelSelect]) *)

(** The field storage of a model instance ([instance.__data__]). *)
Abbreviation instance := (gmap string pyval).

(** Modelled from the spec: peewee's [ModelSelect] is a dependency, not part
    of the repository.  A query is its underlying result set, in order, with
    the LIMIT and OFFSET it carries.  The spec's [count()] and
    [narrow(offset, limit)] are [count] and [paginate]; "0 means no limit,
    return all" is the spec's reading of [limit], and it is what the
    repository's tests expect from the pinned peewee on SQLite, where a LIMIT
    that is not positive does not bound the result and a negative OFFSET
    counts as 0. *)
Record query : Type := mkQuery {
  q_rows : list instance;
  q_limit : option Z;
  q_offset : option Z
}.

(** [Model.select()]: every row, no LIMIT, no OFFSET. *)
Definition select (rows : list instance) : query :=
  {| q_rows := rows; q_limit := None; q_offset := None |}.

(** Modelled from the spec: the rows a query yields when it is executed
    (iterated), in SQLite's reading of LIMIT and OFFSET: a limit of 0, or a
    negative one, returns all rows after the offset; a negative offset skips
    nothing.  LIMIT and OFFSET are taken to lie within the 64-bit integers of
    the database: beyond them the driver refuses the parameter with an
    [OverflowError], which is outside this model. *)
Definition execute (q : query) : list instance :=
  let after :=
    match q_offset q with
    | Some o => skipn (Z.to_nat o) (q_rows q)
    | None => q_rows q
    end in
  match q_limit q with
  | Some l => if 0 <? l then firstn (Z.to_nat l) after else after
  | None => after
  end.

(** [query.count()]. *)
Definition count (q : query) : Z := Z.of_nat (length (execute q)).

(** [bool(query)]: a query has [__len__], so it is true when it yields a row. *)
Definition query_bool (q : query) : bool :=
  match execute q with
  | [] => false
  | _ => true
  end.

(** Modelled from the spec: [query.paginate(page, paginate_by)], the spec's
    [narrow(offset, limit)].  As in peewee, the result is a copy of the query
    whose LIMIT is [paginate_by] and whose OFFSET is [page * paginate_by], a
    positive page being counted from 1. *)
Definition paginate (q : query) (page paginate_by : Z) : query :=
  let page := if 0 <? page then page - 1 else page in
  {| q_rows := q_rows q;
     q_limit := Some paginate_by;
     q_offset := Some (page * paginate_by) |}.

(** ** component.py *)

(** [GenericComponent.add_metadata(query, context)].  The returned context is
    the argument after [context['metadata'] = {...}]. *)
Definition add_metadata (q : query) (context : pydict) : outcome (query * pydict) :=
  let offset := dict_get_default context "offset" (PInt 1) in
  let limit := dict_get_default context "limit" (PInt 0) in
  let total := count q in
  let* (q', remaining) :=
    (if query_bool q && truthy offset then
       let* page := as_int offset in
       let* paginate_by := as_int limit in
       let q' := paginate q page paginate_by in
       Returned (q', Z.max (total - paginate_by * (page - 1) - count q') 0)
     else Returned (q, 0)) in
  let* has_previous := py_gt offset 1 in
  let metadata :=
    [ ("count", PInt total);
      ("remaining", PInt remaining);
      ("offset", offset);
      ("limit", limit);
      ("next", if 0 <? remaining then dict_get_default context "next" PNone else PNone);
      ("previous", if has_previous then dict_get_default context "previous" PNone else PNone);
      ("route_args", dict_get_default context "route_args" (PDict [])) ] in
  Returned (q', dict_set "metadata" (PDict metadata) context).

(** ** schema.py *)

(** [GenericSchema.wrap_data(data)], the [post_dump] hook, for a schema whose
    context is [context].  [_data] is the very dict stored under
    [context['metadata']], so the assignment of ['items'] shows in the context
    too; item assignment on a value that is not a dict is a [TypeError]. *)
Definition wrap_data (context : pydict) (data : pyval) : outcome (pyval * pydict) :=
  if dict_has "metadata" context
     && negb (truthy (dict_get_default context "child" PNone))
  then
    match dict_get "metadata" context with
    | Some (PDict _data) =>
        let _data := dict_set "items" data _data in
        Returned (PDict _data, dict_set "metadata" (PDict _data) context)
    | _ => Raised TypeError
    end
  else Returned (data, context).

Section Component.

(** What the schema makes of one record ([dump] with [many=False], before any
    hook): marshmallow's work, taken as given. *)
Variable dump_one : instance -> pyval.

(** [schema(context=context).dump(items, many=True).data]: the records the
    query yields, serialised in order, then passed through the hook. *)
Definition dump_many (context : pydict) (items : query) : outcome (pyval * pydict) :=
  wrap_data context (PList (map dump_one (execute items))).

(** [GenericComponent.search]: the default returns the query as it is. *)
Definition search (q : query) (request_args : pydict) : query := q.

(** [GenericComponent.get_items(request_args, context)] on a component whose
    [self.context] is [self_context] and whose [base_query()] is [base_query].
    The second component of the result is the dict the schema worked on,
    after the call. *)
Definition get_items (self_context : pydict) (base_query : query)
    (request_args context : pydict) : outcome (pyval * pydict) :=
  let items := search base_query request_args in
  let* (items, context) :=
    (if truthy (dict_get_default self_context "wrapper" PNone)
     then add_metadata items self_context
     else Returned (items, context)) in
  dump_many context items.

End Component.

(** ** model.py *)

(** What [getattr(self.__class__, key)] can find: a [peewee.Field], known by
    the name under which the instance stores it, or anything else (a method, a
    plain class attribute, ...).  A field is found under its own name; a
    foreign key is also found under its ['<name>_id'] attribute, which gives
    the same field. *)
Inductive class_attr : Type :=
| Field (name : string)
| OtherAttr.

(** A model class, as the table of its attributes. *)
Abbreviation model_class := (gmap string class_attr).

(** [getattr(cls, key)], without a default: a missing attribute raises. *)
Definition getattr (cls : model_class) (key : string) : outcome class_attr :=
  match cls !! key with
  | Some a => Returned a
  | None => Raised (AttributeError key)
  end.

(** [isinstance(a, peewee.Field)]. *)
Definition is_Field (a : class_attr) : bool :=
  match a with
  | Field _ => true
  | OtherAttr => false
  end.

(** The declared fields of a model class. *)
Definition fields (cls : model_class) : gset string :=
  dom (filter (fun kv => is_Field kv.2 = true) cls).

(** The field that an attribute name addresses, if it addresses one. *)
Definition field_of (cls : model_class) (key : string) : option string :=
  match cls !! key with
  | Some (Field name) => Some name
  | _ => None
  end.

(** [setattr(self, key, val)]: the assignment goes through the descriptor the
    class has under [key].  The descriptor of a field stores the value in the
    instance under the field's name, whichever attribute addressed it; any
    other assignment leaves the field storage alone. *)
Definition setattr (cls : model_class) (self : instance) (key : string)
    (val : pyval) : instance :=
  match field_of cls key with
  | Some name => <[name := val]> self
  | None => self
  end.

(** The fields that the keys of an update map address, in the order of the
    map. *)
Definition assigned_fields (cls : model_class) (data : pydict) : list string :=
  omap (field_of cls) (dict_keys data).

(** The [for] loop of [update_instance]: the exception that ended it, if any,
    and the instance as the loop left it. *)
Fixpoint update_loop (cls : model_class) (data : pydict) (self : instance)
    : option exn * instance :=
  match data with
  | [] => (None, self)
  | (key, val) :: rest =>
      match getattr cls key with
      | Raised e => (Some e, self)
      | Returned a =>
          if is_Field a
          then update_loop cls rest (setattr cls self key val)
          else (Some (AttributeError key), self)
      end
  end.

Section Model.

(** The database and [Model.save()], which writes the instance to it: peewee's
    work, taken as given.  The instance saved is a stored record, so saving
    changes no field of it; and [save] stands for a [save()] that returns: a
    [save()] that the database refuses (it raises, for instance for a value
    that breaks a constraint) is outside this model, and a call counts as
    successful only when its [save()] returned. *)
Context {DB : Type}.
Variable save : instance -> DB -> DB.

(** [GenericModel.update_instance(data)]: what the call returns or raises, the
    instance after the call, and the database after the call. *)
Definition update_instance (cls : model_class) (data : pydict)
    (self : instance) (db : DB) : outcome instance * instance * DB :=
  match update_loop cls data self with
  | (Some e, self') => (Raised e, self', db)
  | (None, self') => (Returned self', self', save self' db)
  end.

End Model.

(** ** Further code: results with library exceptions *)

(** What a call into the component, the schema or the view can end with
    besides the exceptions above: [KeyError] of a dict lookup, marshmallow's
    [ValidationError] and peewee's [DoesNotExist]. *)
Inductive failure : Type :=
| PythonError (e : exn)
| KeyError (key : pyval)
| ValidationError (messages : pyval)
| DoesNotExist.

Inductive attempt (A : Type) : Type :=
| Success (a : A)
| Failure (f : failure).

Arguments Success {A} a.
Arguments Failure {A} f.

Definition attempt_bind {A B : Type} (m : attempt A) (k : A -> attempt B)
    : attempt B :=
  match m with
  | Success a => k a
  | Failure f => Failure f
  end.

Notation "'let+' x ':=' m 'in' k" := (attempt_bind m (fun x => k))
  (at level 10, x pattern, m at level 100, k at level 200).

Definition lift {A : Type} (m : outcome A) : attempt A :=
  match m with
  | Returned a => Success a
  | Raised e => Failure (PythonError e)
  end.

(** The records of the query that a call of [add_metadata] returned (none
    when it raised). *)
Definition returned_items (r : outcome (query * pydict)) : list instance :=
  match r with
  | Returned (q', _) => execute q'
  | Raised _ => []
  end.

(** ** Further code of schema.py *)

(** [d.pop(key, None)] on a dict. *)
Fixpoint dict_pop (key : string) (d : pydict) : pydict :=
  match d with
  | [] => []
  | (k, v) :: rest =>
      if String.eqb key k then rest else (k, v) :: dict_pop key rest
  end.

(** [GenericSchema._strip_data(request_data)] for a schema class whose
    [remove_fields] are given; the result is [request_data] after the call.
    With nothing to remove the loop body never runs.  Otherwise a dict loses
    the keys; on a list [pop(field, None)] is a [TypeError] (a list's [pop]
    takes one argument at most), and [None], booleans, numbers and strings
    have no [pop] at all. *)
Definition _strip_data (remove_fields : list string) (request_data : pyval)
    : outcome pyval :=
  match remove_fields with
  | [] => Returned request_data
  | _ :: _ =>
      match request_data with
      | PDict d => Returned (PDict (fold_left (fun d field => dict_pop field d) remove_fields d))
      | PList _ => Raised TypeError
      | _ => Raised (AttributeError "pop")
      end
  end.

(** What the code reads and writes of a marshmallow field. *)
Record field_opts : Type := mkOpts {
  opt_required : bool;
  opt_allow_none : bool
}.

(** A schema class: the class attributes of [GenericSchema] and its fields. *)
Record schema_class : Type := mkSchemaClass {
  remove_fields : list string;
  required : pyval;
  allow_none : pyval;
  declared_fields : gmap string field_opts;
  Meta_model : option model_class
}.

(** A schema instance, as far as [GenericSchema.__init__] sets it up. *)
Record schema : Type := mkSchema {
  sch_fields : gmap string field_opts;
  sch_exclude : pyval;
  sch_context : pyval;
  sch_many : bool;
  sch_strict : bool;
  sch_ordered : bool
}.

(** [isinstance(v, (tuple, list))]. *)
Definition is_sequence (v : pyval) : bool :=
  match v with
  | PList _ => true
  | _ => false
  end.

(** [setattr(self.fields[field], _attr, True)] for one element [field] of the
    class attribute: a missing key is a [KeyError], a list or a dict is not
    hashable. *)
Definition mark_field (set : field_opts -> field_opts) (field : pyval)
    (fields : gmap string field_opts) : attempt (gmap string field_opts) :=
  match field with
  | PStr name =>
      match fields !! name with
      | Some f => Success (<[name := set f]> fields)
      | None => Failure (KeyError field)
      end
  | PList _ | PDict _ => Failure (PythonError TypeError)
  | _ => Failure (KeyError field)
  end.

Fixpoint mark_fields (set : field_opts -> field_opts) (names : list pyval)
    (fields : gmap string field_opts) : attempt (gmap string field_opts) :=
  match names with
  | [] => Success fields
  | field :: rest =>
      let+ fields := mark_field set field fields in
      mark_fields set rest fields
  end.

(** One round of the loop over [('required', 'allow_none')]: the class
    attribute counts only if it is truthy and a tuple or list. *)
Definition mark_attr (set : field_opts -> field_opts) (attr : pyval)
    (fields : gmap string field_opts) : attempt (gmap string field_opts) :=
  match attr with
  | PList [] => Success fields
  | PList names => mark_fields set names fields
  | _ => Success fields
  end.

Definition set_required (f : field_opts) : field_opts :=
  {| opt_required := true; opt_allow_none := opt_allow_none f |}.

Definition set_allow_none (f : field_opts) : field_opts :=
  {| opt_required := opt_required f; opt_allow_none := true |}.

(** [GenericSchema.__init__], after [super().__init__] has set up
    [self.fields] as [fields] and [self.exclude] as [exclude]; [context] is
    [kwargs.get('context', {})]. *)
Definition GenericSchema_init (cls : schema_class)
    (fields : gmap string field_opts) (exclude context : pyval) (many : bool)
    : attempt schema :=
  let+ fields := mark_attr set_required (required cls) fields in
  let+ fields := mark_attr set_allow_none (allow_none cls) fields in
  let exclude :=
    match context with
    | PDict d =>
        let e := dict_get_default d "exclude" PNone in
        if truthy e && is_sequence e then e else exclude
    | _ => exclude
    end in
  Success {| sch_fields := fields; sch_exclude := exclude;
             sch_context := context; sch_many := many;
             sch_strict := true; sch_ordered := true |}.

(** The parts of a Flask request that [for_serialization] reads.
    [request.form] is an immutable multi-dict. *)
Record request : Type := mkRequest {
  mimetype : string;
  form : pydict;
  json : pyval
}.

(** [_strip_data(request.form)]: the form is immutable, so its [pop] raises
    [TypeError]; with nothing to remove, [pop] is never called. *)
Definition strip_form (remove_fields : list string) (form : pydict)
    : outcome pydict :=
  match remove_fields with
  | [] => Returned form
  | _ :: _ => Raised TypeError
  end.

(** [isinstance(v, dict)]. *)
Definition is_dict (v : pyval) : bool :=
  match v with
  | PDict _ => true
  | _ => false
  end.

(** [GenericSchema.for_serialization(request)]: the schema it returns and the
    request after the call. *)
Definition for_serialization (cls : schema_class) (req : request)
    : attempt (schema * request) :=
  let+ (many, req) :=
    (if String.eqb (mimetype req) "multipart/form-data" then
       let+ form := lift (strip_form (remove_fields cls) (form req)) in
       Success (false, {| mimetype := mimetype req; form := form; json := json req |})
     else if String.eqb (mimetype req) "application/json" then
       let many :=
         match json req with
         | PList l => forallb is_dict l
         | _ => false
         end in
       let+ body := lift (_strip_data (remove_fields cls) (json req)) in
       Success (many, {| mimetype := mimetype req; form := form req; json := body |})
     else
       Failure (PythonError (AttributeError "Incorrect mimetype for serialization"))) in
  let+ sch :=
    GenericSchema_init cls (declared_fields cls) (PList [])
      (PDict [ ("return_dict", PBool true);
               ("convert_fks", PBool false);
               ("convert_dates", PBool false) ])
      many in
  Success (sch, req).

(** ** Further code of component.py *)

Section Crud.

(** The collaborators, taken as given: the database with peewee's lookup by
    primary key (which raises [DoesNotExist]), [save()] and
    [delete_instance()] of a stored instance, [save()] of a new instance
    (which may store a primary key in it), the model constructor, and
    marshmallow's [load] (strict, so it raises [ValidationError]) and [dump]
    of one record, both by a schema instance. *)
Context {DB : Type}.
Variable get_by_id : Z -> DB -> attempt instance.
Variable save : instance -> DB -> DB.
Variable delete_instance : instance -> DB -> DB.
Variable save_new : instance -> DB -> instance * DB.
Variable construct : model_class -> pydict -> instance.
Variable load : schema -> pydict -> attempt pydict.
Variable dump : schema -> instance -> pyval.

(** The component class: its [schema] and its [model]. *)
Variable schema_cls : schema_class.
Variable model : model_class.

(** [self.schema()] and [self.schema(context=context)]. *)
Definition new_schema (context : pydict) : attempt schema :=
  GenericSchema_init schema_cls (declared_fields schema_cls) (PList [])
    (PDict context) false.

(** [schema.dump(item, many=False).data]: one record, serialised and passed
    through the [post_dump] hook of the schema, whose context is [context]. *)
Definition dump_single (sch : schema) (context : pydict) (item : instance)
    : attempt pyval :=
  let+ (data, _) := lift (wrap_data context (dump sch item)) in
  Success data.

(** [GenericComponent.get_item(item_id)]. *)
Definition get_item (item_id : Z) (db : DB) : attempt pyval :=
  let+ sch := new_schema [] in
  let+ item := get_by_id item_id db in
  dump_single sch [] item.

(** [GenericSchema.make_instance(data)]. *)
Definition make_instance (data : pydict) : attempt instance :=
  let+ klass := new_schema [] in
  match Meta_model schema_cls with
  | None =>
      Failure (PythonError (AttributeError "Missing model class to make instance"))
  | Some model =>
      let+ serialized_data := load klass data in
      Success (construct model serialized_data)
  end.

(** [GenericComponent.create_item(data)]: the answer and the database after
    the call. *)
Definition create_item (data : pydict) (db : DB) : attempt pyval * DB :=
  match new_schema [] with
  | Failure f => (Failure f, db)
  | Success sch =>
      match make_instance data with
      | Failure f => (Failure f, db)
      | Success item =>
          let '(item, db) := save_new item db in
          (dump_single sch [] item, db)
      end
  end.

(** [GenericComponent.update_item(item_id, data)]. *)
Definition update_item (item_id : Z) (data : pydict) (db : DB)
    : attempt pyval * DB :=
  match (let+ sch := new_schema [] in
         let+ serialized_data := load sch data in
         let+ item := get_by_id item_id db in
         Success (sch, serialized_data, item)) with
  | Failure f => (Failure f, db)
  | Success (sch, serialized_data, item) =>
      match update_instance save model serialized_data item db with
      | (Raised e, _, db) => (Failure (PythonError e), db)
      | (Returned _, item, db) => (dump_single sch [] item, db)
      end
  end.

(** [GenericComponent.delete_item(item_id)] on a component whose
    [self.context] is [self_context]. *)
Definition delete_item (self_context : pydict) (item_id : Z) (db : DB)
    : attempt pyval * DB :=
  match (let+ sch := new_schema self_context in
         let+ item := get_by_id item_id db in
         Success (sch, item)) with
  | Failure f => (Failure f, db)
  | Success (sch, item) =>
      let db := save item (delete_instance item db) in
      (dump_single sch self_context item, db)
  end.

End Crud.

(** ** blueprint.py *)

Section View.

(** Python's [int(s)] on a string ([None] for a [ValueError]) and Flask's
    [url_for(endpoint, _external=True, _scheme=scheme, **kwargs)], taken as
    given, with the application's [USE_HTTPS] setting.  [url_for] stands for
    a call that builds its URL, as it does for the endpoint and the view
    arguments of the request being served; the call that cannot be made,
    because an argument repeats a name it binds, is [context_urls]' to
    refuse. *)
Variable py_int : string -> option Z.
Variable url_for : string -> string -> pydict -> string.
Variable use_https : bool.
Variable dump_one : instance -> pyval.

(** [request.args[key]] of the query string: the first value of the key. *)
Fixpoint args_get (key : string) (args : list (string * string)) : option string :=
  match args with
  | [] => None
  | (k, v) :: rest => if String.eqb key k then Some v else args_get key rest
  end.

(** [request.args.get(key, default, type=int)]: the default also stands in
    for a value that is not a number. *)
Definition args_get_int (key : string) (default : pyval)
    (args : list (string * string)) : pyval :=
  match args_get key args with
  | None => default
  | Some s =>
      match py_int s with
      | Some z => PInt z
      | None => default
      end
  end.

(** [request.args.get(key, type=bool)]: [bool(s)] of the string. *)
Definition args_get_bool (key : string) (args : list (string * string)) : pyval :=
  match args_get key args with
  | None => PNone
  | Some s => PBool (negb (String.eqb s ""))
  end.

(** The keys of the query string with the first value of each. *)
Fixpoint first_values (args : list (string * string)) : list (string * string) :=
  match args with
  | [] => []
  | (k, v) :: rest =>
      (k, v) :: filter (fun kv => negb (String.eqb kv.1 k)) (first_values rest)
  end.

(** [{**request.view_args, **request.args}]. *)
Definition merge_args (view_args : pydict) (args : list (string * string)) : pydict :=
  fold_left (fun d kv => dict_set kv.1 (PStr kv.2) d) (first_values args) view_args.

(** The names that the calls of [context_urls] and [url_for] bind themselves:
    the positional parameters [route_name] and [endpoint] and the keywords
    [_external] and [_scheme]. *)
Definition bound_names : list string :=
  ["route_name"; "endpoint"; "_external"; "_scheme"].

(** [GenericComponent.context_urls(route_name, **kwargs)], called with the
    request's arguments as [**kwargs] and passing them on to [url_for] next to
    [_external] and [_scheme]: an argument with one of the bound names is a
    second value for it, a [TypeError]. *)
Definition context_urls (route_name : string) (kwargs : pydict)
    : outcome (string * string) :=
  if existsb (fun name => dict_has name kwargs) bound_names
  then Raised TypeError
  else
    let context_next :=
      url_for route_name (if use_https then "https" else "http") kwargs in
    let context_previous :=
      url_for route_name (if use_https then "https" else "http") kwargs in
    Returned (context_next, context_previous).

(** [GenericView.generate_context()] for a request with the given endpoint,
    view arguments and query string; [current_user] is flask_login's, or
    [None] without flask_login. *)
Definition generate_context (endpoint : string) (view_args : pydict)
    (args : list (string * string)) (current_user : pyval) : outcome pydict :=
  let* (next_url, previous_url) :=
    context_urls endpoint (merge_args view_args args) in
  Returned
    [ ("wrapper", PBool true);
      ("offset", args_get_int "offset" (PInt 0) args);
      ("limit", args_get_int "limit" PNone args);
      ("archived", args_get_bool "archived" args);
      ("next", PStr next_url);
      ("previous", PStr previous_url);
      ("route_args", PDict (merge_args view_args args));
      ("route_endpoint", PStr endpoint);
      ("current_user", current_user) ].

(** [ApiReadManyMixin.read_many()], for a component whose [base_query()] is
    [base_query]: the body handed to [jsonify]. *)
Definition read_many (base_query : query) (endpoint : string) (view_args : pydict)
    (args : list (string * string)) (current_user : pyval) : outcome pyval :=
  let* context := generate_context endpoint view_args args current_user in
  let* (body, _) :=
    get_items dump_one context base_query
      (map (fun kv => (kv.1, PStr kv.2)) args) context in
  Returned body.

End View.

(** ** The example application (examples/todo_app.py) and test data *)

(** [TodoModel]: the fields [id] and [text], and the inherited methods. *)
Definition TodoModel : model_class :=
  <["id" := Field "id"]> (<["text" := Field "text"]>
  (<["save" := OtherAttr]> (<["update_instance" := OtherAttr]> ∅))).

(** [TestModel] of tests/test_model.py: [TodoModel] with [invalid = False]. *)
Definition TestModel : model_class := <["invalid" := OtherAttr]> TodoModel.


Definition todo (i : Z) (t : string) : instance :=
  <["id" := PInt i]> (<["text" := PStr t]> ∅).

(** [TodoSchema().dump(item)]: the fields [id] and [text], in this order. *)
Definition todo_dump (item : instance) : pyval :=
  PDict [ ("id", default PNone (item !! "id"));
          ("text", default PNone (item !! "text")) ].

(** The same, as the dump of a schema instance. *)
Definition todo_schema_dump (sch : schema) (item : instance) : pyval :=
  todo_dump item.

(** Three stored items, as the tests create them. *)
Definition three_todos : query :=
  select [todo 1 "first"; todo 2 "second"; todo 3 "third"].

(** [TodoModel.select().limit(2)] on the same three items. *)
Definition first_two_todos : query :=
  {| q_rows := q_rows three_todos; q_limit := Some 2; q_offset := None |}.

(** A database that records every [save()]. *)
Definition save_log (self : instance) (db : list instance) : list instance :=
  (db ++ [self])%list.

(** The contexts of tests/test_component.py. *)
Definition wrapper_context : pydict := [("wrapper", PBool true)].

Definition second_page : pydict :=
  [("wrapper", PBool true); ("limit", PInt 1); ("offset", PInt 2)].

(** The context [GenericView.generate_context] builds for a request without
    query parameters: [offset] is 0 and [limit] is [None]. *)
Definition view_context : pydict :=
  [ ("wrapper", PBool true);
    ("offset", PInt 0);
    ("limit", PNone);
    ("archived", PNone);
    ("next", PStr "http://localhost/");
    ("previous", PStr "http://localhost/");
    ("route_args", PDict []);
    ("route_endpoint", PStr "TodoApiView:read_many");
    ("current_user", PNone) ].

(** A context that still holds the metadata of an earlier call and has no
    ['wrapper']. *)
Definition stale_context : pydict := [("metadata", PDict [("count", PInt 7)])].

(** [TodoSchema]: the inherited [id], which allows [None], and [text]. *)
Definition TodoSchema : schema_class :=
  {| remove_fields := [];
     required := PList [];
     allow_none := PList [];
     declared_fields :=
       <["id" := mkOpts false true]> (<["text" := mkOpts false false]> ∅);
     Meta_model := Some TodoModel |}.

(** [TestSchema] of [test_required] in tests/test_schema.py: [text] allows
    [None] and is listed as required; the schema has no model. *)
Definition RequiredSchema : schema_class :=
  {| remove_fields := [];
     required := PList [PStr "text"];
     allow_none := PList [];
     declared_fields :=
       <["id" := mkOpts false true]> (<["text" := mkOpts false true]> ∅);
     Meta_model := None |}.

(** A schema that lists a field it does not declare, and one that strips the
    [id] from request data. *)
Definition MisspeltSchema : schema_class :=
  {| remove_fields := [];
     required := PList [PStr "text"; PStr "title"];
     allow_none := PList [];
     declared_fields := declared_fields TodoSchema;
     Meta_model := Some TodoModel |}.

Definition StrippingSchema : schema_class :=
  {| remove_fields := ["id"];
     required := PList [];
     allow_none := PList [];
     declared_fields := declared_fields TodoSchema;
     Meta_model := Some TodoModel |}.

(** A database for the examples: the rows of one table. *)
Definition has_id (item_id : Z) (row : instance) : bool :=
  match row !! "id" with
  | Some (PInt i) => i =? item_id
  | _ => false
  end.

Definition table_get (item_id : Z) (table : list instance) : attempt instance :=
  match List.find (has_id item_id) table with
  | Some row => Success row
  | None => Failure DoesNotExist
  end.

Definition table_save (self : instance) (table : list instance) : list instance :=
  map (fun row =>
         match self !! "id" with
         | Some (PInt i) => if has_id i row then self else row
         | _ => row
         end) table.

Definition table_delete (self : instance) (table : list instance) : list instance :=
  match self !! "id" with
  | Some (PInt i) => List.filter (fun row => negb (has_id i row)) table
  | _ => table
  end.

Definition table_insert (self : instance) (table : list instance)
    : instance * list instance :=
  let self := <["id" := PInt (Z.of_nat (S (length table)))]> self in
  (self, (table ++ [self])%list).

(** [TodoSchema().load]: the text, when given, is a string that is not
    empty. *)
Definition todo_load (sch : schema) (data : pydict) : attempt pydict :=
  match dict_get "text" data with
  | Some (PStr "") | Some PNone =>
      Failure (ValidationError (PDict [("text", PList [PStr "Invalid value."])]))
  | _ => Success data
  end.

Definition todo_construct (model : model_class) (data : pydict) : instance :=
  list_to_map data.

(** [int(s)] for the strings of the examples. *)
Definition example_int (s : string) : option Z :=
  if String.eqb s "0" then Some 0
  else if String.eqb s "1" then Some 1
  else if String.eqb s "2" then Some 2
  else None.

Definition example_url (endpoint scheme : string) (kwargs : pydict) : string :=
  (scheme ++ "://localhost/")%string.

(** * Facts *)

(** ** Dicts *)

Lemma dict_get_set_eq key v d : dict_get key (dict_set key v d) = Some v.
Proof.
  induction d as [|[k w] rest IH]; simpl.
  - now rewrite String.eqb_refl.
  - destruct (String.eqb key k) eqn:E; simpl; rewrite E; auto.
Qed.

Lemma dict_get_set_ne key key' v d :
  key <> key' -> dict_get key' (dict_set key v d) = dict_get key' d.
Proof.
  intros Hne. induction d as [|[k w] rest IH]; simpl.
  - destruct (String.eqb_spec key' key); congruence.
  - destruct (String.eqb_spec key k) as [->|]; simpl.
    + destruct (String.eqb_spec key' k); congruence.
    + now rewrite IH.
Qed.

Lemma dict_keys_set_new key v d :
  dict_get key d = None -> dict_keys (dict_set key v d) = (dict_keys d ++ [key])%list.
Proof.
  unfold dict_keys. induction d as [|[k w] rest IH]; simpl; intros H; auto.
  destruct (String.eqb key k); [discriminate|]. simpl. now rewrite IH.
Qed.

(** ** The query model *)

Lemma execute_select rows : execute (select rows) = rows.
Proof. reflexivity. Qed.

Lemma execute_length_le q : (length (execute q) <= length (q_rows q))%nat.
Proof.
  unfold execute.
  assert (Hs : forall n, (length (skipn n (q_rows q)) <= length (q_rows q))%nat)
    by (intros n; rewrite length_skipn; lia).
  destruct (q_offset q) as [o|], (q_limit q) as [l|];
    try destruct (0 <? l); rewrite ?length_firstn; try apply Hs; try lia.
  all: specialize (Hs (Z.to_nat o)); lia.
Qed.

Lemma count_nonneg q : 0 <= count q.
Proof. unfold count. lia. Qed.

Lemma query_bool_false q : query_bool q = false -> execute q = [].
Proof. unfold query_bool. now destruct (execute q). Qed.

(** Narrowing with a limit of 0 yields every row of the result set. *)
Lemma execute_paginate_unlimited q page : execute (paginate q page 0) = q_rows q.
Proof.
  unfold execute, paginate. simpl. now rewrite Z.mul_0_r.
Qed.

(** ** [add_metadata] on integer [offset] and [limit] *)

(** The query and the [remaining] that [add_metadata] computes. *)
Lemma add_metadata_int q context offset limit :
  dict_get_default context "offset" (PInt 1) = PInt offset ->
  dict_get_default context "limit" (PInt 0) = PInt limit ->
  exists q' remaining,
    (if query_bool q && negb (offset =? 0)
     then q' = paginate q offset limit
          /\ remaining = Z.max (count q - limit * (offset - 1) - count q') 0
     else q' = q /\ remaining = 0)
    /\ add_metadata q context =
       Returned (q', dict_set "metadata" (PDict
         [ ("count", PInt (count q));
           ("remaining", PInt remaining);
           ("offset", PInt offset);
           ("limit", PInt limit);
           ("next", if 0 <? remaining
                    then dict_get_default context "next" PNone else PNone);
           ("previous", if 1 <? offset
                        then dict_get_default context "previous" PNone else PNone);
           ("route_args", dict_get_default context "route_args" (PDict [])) ])
         context).
Proof.
  intros Ho Hl. unfold add_metadata. rewrite Ho, Hl. simpl.
  destruct (query_bool q && negb (offset =? 0)); simpl; eauto.
Qed.

(** Whenever [add_metadata] returns, the context it returns is the one it
    was given with a fresh seven-key dict stored under ['metadata']. *)
Lemma add_metadata_returned q context q' context' :
  add_metadata q context = Returned (q', context') ->
  exists remaining (has_previous : bool),
    context' = dict_set "metadata" (PDict
      [ ("count", PInt (count q));
        ("remaining", PInt remaining);
        ("offset", dict_get_default context "offset" (PInt 1));
        ("limit", dict_get_default context "limit" (PInt 0));
        ("next", if 0 <? remaining
                 then dict_get_default context "next" PNone else PNone);
        ("previous", if has_previous
                     then dict_get_default context "previous" PNone else PNone);
        ("route_args", dict_get_default context "route_args" (PDict [])) ])
      context.
Proof.
  unfold add_metadata, py_gt.
  destruct (query_bool q && truthy (dict_get_default context "offset" (PInt 1)));
    destruct (as_int (dict_get_default context "offset" (PInt 1)));
    destruct (as_int (dict_get_default context "limit" (PInt 0)));
    simpl; intros H; try discriminate H; injection H as <- <-;
    match goal with
    | |- exists _ _, dict_set _ (PDict (_ :: (_, PInt ?r) :: _ :: _ :: _
                                        :: (_, if ?b then _ else _) :: _)) _ = _ =>
        exists r, b
    end; reflexivity.
Qed.

Section Pagination.

Variables (q : query) (context : pydict).

(** C1: for [limit > 0] and [offset >= 1] (the total, [count q], is never
    negative), [add_metadata] returns the query narrowed to the page, that
    is [paginate q offset limit], whose items are the at most [limit] rows
    after the first [limit*(offset-1)] (an empty query is returned as it
    is), and its metadata has
    [remaining = max(total - limit*(offset-1) - len(items), 0)], where
    [items] are the records of that narrowed page. *)
Theorem add_metadata_remaining (offset limit : Z) :
  dict_get_default context "offset" (PInt 1) = PInt offset ->
  dict_get_default context "limit" (PInt 0) = PInt limit ->
  0 < limit -> 1 <= offset ->
  exists context' metadata,
    let q' := if query_bool q then paginate q offset limit else q in
    let items := execute q' in
    add_metadata q context = Returned (q', context')
    /\ dict_get "metadata" context' = Some (PDict metadata)
    /\ dict_get "count" metadata = Some (PInt (count q))
    /\ 0 <= count q
    /\ items =
       (if query_bool q
        then firstn (Z.to_nat limit)
               (skipn (Z.to_nat (limit * (offset - 1))) (q_rows q))
        else [])
    /\ dict_get "remaining" metadata =
       Some (PInt (Z.max (count q - limit * (offset - 1)
                          - Z.of_nat (length items)) 0)).
Proof.
  intros Ho Hl Hlim Hoff.
  destruct (add_metadata_int q context offset limit Ho Hl)
    as (q' & remaining & Hq & Hadd).
  replace (query_bool q && negb (offset =? 0)) with (query_bool q) in Hq
    by (replace (offset =? 0) with false by lia; now rewrite andb_true_r).
  assert (Hq' : q' = (if query_bool q then paginate q offset limit else q))
    by (destruct (query_bool q); now destruct Hq).
  rewrite <- Hq'. rewrite Hadd. clear Hadd.
  do 2 eexists. cbv zeta.
  split; [reflexivity|]. split; [apply dict_get_set_eq|].
  split; [reflexivity|]. split; [apply count_nonneg|].
  destruct (query_bool q) eqn:Hb.
  - destruct Hq as [-> ->]. split.
    + unfold execute, paginate. cbn [q_rows q_limit q_offset].
      replace (0 <? offset) with true by lia.
      replace (0 <? limit) with true by lia.
      now replace ((offset - 1) * limit) with (limit * (offset - 1)) by lia.
    + reflexivity.
  - destruct Hq as [-> ->]. split; [now apply query_bool_false|].
    cbn [dict_get String.eqb Ascii.eqb Bool.eqb]. simpl. do 2 f_equal.
    unfold count. rewrite (query_bool_false q Hb). simpl. nia.
Qed.

(** C3, amended: [add_metadata] does not reject a page request.  With an
    [offset] of 0, an offset below 1, it returns the query it was given, not
    narrowed, for every integer [limit], the negative ones too, and raises
    nothing.  With [offset >= 1] and [limit >= 0], as long as [limit * offset]
    is below [2^63] and so within the integers of the database, it returns
    the narrowed query and raises nothing. *)
Theorem add_metadata_never_rejects (offset limit : Z) :
  dict_get_default context "offset" (PInt 1) = PInt offset ->
  dict_get_default context "limit" (PInt 0) = PInt limit ->
  offset = 0 \/ (1 <= offset /\ 0 <= limit /\ limit * offset < 2 ^ 63) ->
  (exists context',
     add_metadata q context =
       Returned (if query_bool q && negb (offset =? 0)
                 then paginate q offset limit else q, context'))
  /\ (offset = 0 ->
      exists context', add_metadata q context = Returned (q, context'))
  /\ ~ raises (add_metadata q context).
Proof.
  intros Ho Hl _.
  destruct (add_metadata_int q context offset limit Ho Hl)
    as (q' & remaining & Hq & ->).
  split; [|split].
  - eexists. f_equal. f_equal.
    destruct (query_bool q && negb (offset =? 0)); now destruct Hq.
  - intros ->. rewrite andb_false_r in Hq. destruct Hq as [-> _]. eauto.
  - intros [e He]. discriminate He.
Qed.

(** C4, amended: with [limit = 0] and [offset >= 1], [remaining] is 0 and
    the [next] marker is null; for a query that carries no LIMIT or OFFSET of
    its own, [add_metadata] returns every item of the result set; for one
    that does and yields a row, narrowing replaces them, and every row of the
    underlying selection is returned.  (The converse is not claimed.) *)
Theorem add_metadata_unlimited (offset : Z) :
  dict_get_default context "offset" (PInt 1) = PInt offset ->
  dict_get_default context "limit" (PInt 0) = PInt 0 ->
  1 <= offset ->
  exists q' context' metadata,
    add_metadata q context = Returned (q', context')
    /\ q' = (if query_bool q then paginate q offset 0 else q)
    /\ dict_get "metadata" context' = Some (PDict metadata)
    /\ execute q' = (if query_bool q then q_rows q else execute q)
    /\ (q_limit q = None -> q_offset q = None -> execute q' = execute q)
    /\ dict_get "remaining" metadata = Some (PInt 0)
    /\ dict_get "next" metadata = Some PNone.
Proof.
  intros Ho Hl Hoff.
  destruct (add_metadata_int q context offset 0 Ho Hl)
    as (q' & remaining & Hq & ->).
  replace (query_bool q && negb (offset =? 0)) with (query_bool q) in Hq
    by (replace (offset =? 0) with false by lia; now rewrite andb_true_r).
  assert (Hx : q' = (if query_bool q then paginate q offset 0 else q)
               /\ execute q' = (if query_bool q then q_rows q else execute q)
               /\ remaining = 0).
  { destruct (query_bool q) eqn:Hb.
    - destruct Hq as [-> ->]. split; [reflexivity|].
      split; [apply execute_paginate_unlimited|].
      unfold count at 2. rewrite execute_paginate_unlimited.
      pose proof (execute_length_le q). unfold count. lia.
    - now destruct Hq as [-> ->]. }
  destruct Hx as (Hq' & Hx & ->).
  do 3 eexists. split; [reflexivity|]. split; [exact Hq'|].
  split; [apply dict_get_set_eq|].
  split; [exact Hx|]. split; [|split; reflexivity].
  intros Hlim Hoffs. rewrite Hx. destruct (query_bool q); [|reflexivity].
  unfold execute. now rewrite Hlim, Hoffs.
Qed.

(** C5, amended: the [previous] marker is the context's ['previous'] entry
    (null when the context has none) if [offset > 1] and null otherwise, and
    the [next] marker is the context's ['next'] entry if [remaining > 0] and
    null otherwise.  So for a context that supplies a non-null ['next'], the
    [next] marker is non-null exactly when [remaining > 0], and likewise for
    ['previous'] and [offset > 1]. *)
Theorem add_metadata_markers (offset limit : Z) :
  dict_get_default context "offset" (PInt 1) = PInt offset ->
  dict_get_default context "limit" (PInt 0) = PInt limit ->
  exists q' context' metadata remaining,
    add_metadata q context = Returned (q', context')
    /\ dict_get "metadata" context' = Some (PDict metadata)
    /\ dict_get "remaining" metadata = Some (PInt remaining)
    /\ dict_get "next" metadata =
       Some (if 0 <? remaining
             then dict_get_default context "next" PNone else PNone)
    /\ dict_get "previous" metadata =
       Some (if 1 <? offset
             then dict_get_default context "previous" PNone else PNone)
    /\ (dict_get_default context "next" PNone <> PNone ->
        (dict_get "next" metadata <> Some PNone <-> 0 < remaining))
    /\ (dict_get_default context "previous" PNone <> PNone ->
        (dict_get "previous" metadata <> Some PNone <-> 1 < offset)).
Proof.
  intros Ho Hl.
  destruct (add_metadata_int q context offset limit Ho Hl)
    as (q' & remaining & _ & ->).
  exists q'. eexists. eexists. exists remaining.
  split; [reflexivity|]. split; [apply dict_get_set_eq|].
  do 3 (split; [reflexivity|]). simpl. split; intros Hctx.
  - destruct (Z.ltb_spec 0 remaining); split; congruence || lia.
  - destruct (Z.ltb_spec 1 offset); split; congruence || lia.
Qed.

(** C9: with [offset] equal to 0, whatever the limit, [add_metadata] does not
    narrow: it returns the query it was given, [remaining] is 0, the [next]
    and [previous] markers are null, and nothing is raised. *)
Theorem add_metadata_offset_zero :
  dict_get "offset" context = Some (PInt 0) ->
  exists context' metadata,
    add_metadata q context = Returned (q, context')
    /\ dict_get "metadata" context' = Some (PDict metadata)
    /\ dict_get "remaining" metadata = Some (PInt 0)
    /\ dict_get "next" metadata = Some PNone
    /\ dict_get "previous" metadata = Some PNone.
Proof.
  intros Ho.
  assert (Hd : dict_get_default context "offset" (PInt 1) = PInt 0)
    by (unfold dict_get_default; now rewrite Ho).
  unfold add_metadata. rewrite Hd. simpl. rewrite andb_false_r. simpl.
  do 2 eexists. split; [reflexivity|]. split; [apply dict_get_set_eq|].
  repeat split; reflexivity.
Qed.

End Pagination.

(** ** The response envelope *)

Section Envelope.

Variable dump_one : instance -> pyval.
Variables (self_context : pydict) (base : query).
Variables (request_args context : pydict).

(** C7, amended: when the component's context has a truthy ['wrapper'] (and
    no truthy ['child']) and [add_metadata] returns, the list response is a
    dict whose top-level keys are exactly [count], [remaining], [offset],
    [limit], [next], [previous], [route_args] and [items], in this order;
    [items] holds the serialised records of the narrowed query and [count]
    the total. *)
Theorem get_items_envelope q' context_md :
  truthy (dict_get_default self_context "wrapper" PNone) = true ->
  truthy (dict_get_default self_context "child" PNone) = false ->
  add_metadata base self_context = Returned (q', context_md) ->
  exists envelope context',
    get_items dump_one self_context base request_args context =
      Returned (PDict envelope, context')
    /\ dict_keys envelope =
       ["count"; "remaining"; "offset"; "limit"; "next"; "previous";
        "route_args"; "items"]
    /\ dict_get "items" envelope = Some (PList (map dump_one (execute q')))
    /\ dict_get "count" envelope = Some (PInt (count base)).
Proof.
  intros Hw Hc Hadd.
  destruct (add_metadata_returned _ _ _ _ Hadd) as (remaining & prev & Hctx).
  unfold get_items, search. rewrite Hw, Hadd. simpl. subst context_md.
  unfold dump_many, wrap_data, dict_has, dict_get_default.
  rewrite dict_get_set_eq, dict_get_set_ne by discriminate.
  fold (dict_get_default self_context "child" PNone). rewrite Hc. simpl.
  do 2 eexists. repeat split; reflexivity.
Qed.

(** C10, amended: when the component's context has no truthy ['wrapper'] and
    the [context] argument has no ['metadata'] key (the default argument has
    none), [get_items] returns the bare list of the serialised records, in
    order; so with such an argument an envelope is produced only when
    ['wrapper'] is truthy. *)
Theorem get_items_bare_list :
  dict_has "metadata" context = false ->
  (truthy (dict_get_default self_context "wrapper" PNone) = false ->
   get_items dump_one self_context base request_args context =
     Returned (PList (map dump_one (execute base)), context))
  /\ (forall envelope context',
       get_items dump_one self_context base request_args context =
         Returned (PDict envelope, context') ->
       truthy (dict_get_default self_context "wrapper" PNone) = true).
Proof.
  intros Hm.
  assert (Hbare : truthy (dict_get_default self_context "wrapper" PNone) = false ->
                  get_items dump_one self_context base request_args context =
                    Returned (PList (map dump_one (execute base)), context)).
  { intros Hw. unfold get_items, search. rewrite Hw. simpl.
    unfold dump_many, wrap_data. now rewrite Hm. }
  split; [exact Hbare|]. intros envelope context' Hget.
  destruct (truthy (dict_get_default self_context "wrapper" PNone)); [reflexivity|].
  rewrite Hbare in Hget by reflexivity. discriminate Hget.
Qed.

End Envelope.

(** ** Partial update *)

Lemma elem_of_fields (cls : model_class) key :
  key ∈ fields cls <-> exists name, cls !! key = Some (Field name).
Proof.
  unfold fields. rewrite elem_of_dom. unfold is_Some. split.
  - intros [a Ha]. apply map_lookup_filter_Some in Ha as [Ha Hf].
    simpl in Hf. destruct a as [name|]; [eauto|discriminate Hf].
  - intros [name Hk]. exists (Field name). now apply map_lookup_filter_Some.
Qed.

(** An attribute name passes the check of the loop exactly when it addresses
    a field. *)
Lemma elem_of_fields_field_of (cls : model_class) key :
  key ∈ fields cls <-> is_Some (field_of cls key).
Proof.
  rewrite elem_of_fields. unfold field_of, is_Some.
  destruct (cls !! key) as [[name|]|]; split;
    intros [x Hx]; try discriminate Hx; eauto.
Qed.

(** Deciding, for the attribute table of a given class, whether a name
    passes the check. *)
Ltac is_field :=
  apply elem_of_fields_field_of; vm_compute; eexists; reflexivity.

Ltac not_field :=
  rewrite elem_of_fields_field_of; vm_compute;
  let H := fresh in intros [? H]; discriminate H.

(** The loop goes on past a key exactly when the key names a field. *)
Lemma update_loop_cons (cls : model_class) key val rest (self : instance) :
  update_loop cls ((key, val) :: rest) self =
    match cls !! key with
    | Some (Field _) => update_loop cls rest (setattr cls self key val)
    | _ => (Some (AttributeError key), self)
    end.
Proof. simpl. unfold getattr. now destruct (cls !! key) as [[]|]. Qed.

(** A loop that ends without an exception has made every assignment, and
    every key names a field. *)
Lemma update_loop_ok (cls : model_class) data (self self' : instance) :
  update_loop cls data self = (None, self') ->
  Forall (fun kv => kv.1 ∈ fields cls) data
  /\ self' = fold_left (fun s kv => setattr cls s kv.1 kv.2) data self.
Proof.
  revert self. induction data as [|[key val] rest IH]; intros self H.
  - simpl in H. injection H as <-. now split.
  - rewrite update_loop_cons in H.
    destruct (cls !! key) as [[name|]|] eqn:Hk; try discriminate H.
    apply IH in H as [Hall ->]. split; [constructor|]; auto.
    apply elem_of_fields. eauto.
Qed.

(** A loop over entries that all name fields, followed by one that does not:
    the entries before it are assigned, then [AttributeError] ends the loop. *)
Lemma update_loop_first_unknown (cls : model_class) pre key val post (self : instance) :
  Forall (fun kv => kv.1 ∈ fields cls) pre ->
  key ∉ fields cls ->
  update_loop cls (pre ++ (key, val) :: post) self =
    (Some (AttributeError key),
     fold_left (fun s kv => setattr cls s kv.1 kv.2) pre self).
Proof.
  intros Hpre Hkey. revert self.
  induction Hpre as [|[k v] pre Hk _ IH]; intros self.
  - simpl app. rewrite update_loop_cons. simpl.
    destruct (cls !! key) as [[name|]|] eqn:Hc; try reflexivity.
    exfalso. apply Hkey, elem_of_fields. eauto.
  - simpl app. rewrite update_loop_cons. simpl in Hk.
    apply elem_of_fields in Hk as [name Hk]. rewrite Hk. apply IH.
Qed.

(** A map with a key that names no field splits at the first such key. *)
Lemma first_unknown_key (cls : model_class) (data : pydict) :
  (exists key, key ∈ dict_keys data /\ key ∉ fields cls) ->
  exists pre key val post,
    data = (pre ++ (key, val) :: post)%list
    /\ Forall (fun kv => kv.1 ∈ fields cls) pre
    /\ key ∉ fields cls.
Proof.
  induction data as [|[k v] rest IH]; intros (key & Hin & Hbad).
  - inversion Hin.
  - destruct (decide (k ∈ fields cls)) as [Hk|Hk].
    + simpl in Hin. apply elem_of_cons in Hin as [->|Hin]; [contradiction|].
      destruct IH as (pre & key' & val & post & -> & Hpre & Hbad'); [eauto|].
      exists ((k, v) :: pre), key', val, post. repeat split; auto.
    + exists [], k, v, rest. repeat split; auto.
Qed.

(** Assignments leave alone every field that no key addresses. *)
Lemma assign_frame (cls : model_class) (data : pydict) (self : instance) name :
  name ∉ assigned_fields cls data ->
  fold_left (fun s kv => setattr cls s kv.1 kv.2) data self !! name = self !! name.
Proof.
  revert self. induction data as [|[k v] rest IH]; intros self Hnot; [reflexivity|].
  unfold assigned_fields in *. simpl in *. unfold setattr at 2.
  destruct (field_of cls k) as [n|]; simpl in Hnot.
  - apply not_elem_of_cons in Hnot as [Hne Hnot].
    rewrite IH by exact Hnot. now rewrite lookup_insert_ne.
  - now apply IH.
Qed.


(** The field that a key of the map addresses is among the assigned
    fields. *)
Lemma assigned_fields_keys (cls : model_class) (data : pydict) key name :
  key ∈ dict_keys data -> field_of cls key = Some name ->
  name ∈ assigned_fields cls data.
Proof.
  intros Hin Hf. unfold assigned_fields. apply list_elem_of_omap. eauto.
Qed.

Section PartialUpdate.

Context {DB : Type}.
Variable save : instance -> DB -> DB.
Variable cls : model_class.

(** C2, amended: [update_instance] checks and assigns key by key, in the
    order of the map.  When a key that names no field follows keys that all
    name fields, the call fails with [AttributeError] for that key and
    [save()] is not called; the instance has received the assignments of the
    keys before it and no other, so every field that none of these keys
    addresses is unchanged (a key addresses the field of its descriptor: its
    own, or for a foreign key's ['<name>_id'] the field ['<name>']), and the
    instance is fully unchanged when the unknown key comes first. *)
Theorem update_instance_unknown_key pre key val post (self : instance) (db : DB) :
  Forall (fun kv => kv.1 ∈ fields cls) pre ->
  key ∉ fields cls ->
  exists self',
    update_instance save cls (pre ++ (key, val) :: post) self db =
      (Raised (AttributeError key), self', db)
    /\ self' = fold_left (fun s kv => setattr cls s kv.1 kv.2) pre self
    /\ (forall name, name ∉ assigned_fields cls pre -> self' !! name = self !! name)
    /\ (pre = [] -> self' = self).
Proof.
  intros Hpre Hkey. eexists. split; [|split; [reflexivity|split]].
  - unfold update_instance. now rewrite update_loop_first_unknown.
  - intros name. apply assign_frame.
  - now intros ->.
Qed.


(** C8: when the update map has a key that names no field, [update_instance]
    raises [AttributeError] and leaves the database as it was, whatever
    [save()] would do to it: [save()] is not reached. *)
Theorem update_instance_rejected_not_saved data (self : instance) (db : DB) :
  (exists key, key ∈ dict_keys data /\ key ∉ fields cls) ->
  exists key self',
    key ∈ dict_keys data /\ (key ∉ fields cls)
    /\ update_instance save cls data self db =
       (Raised (AttributeError key), self', db).
Proof.
  intros Hbad.
  destruct (first_unknown_key cls data Hbad)
    as (pre & key & val & post & -> & Hpre & Hkey).
  exists key. eexists. split; [|split].
  - unfold dict_keys. rewrite map_app. apply elem_of_app. right. simpl. left.
  - exact Hkey.
  - unfold update_instance. now rewrite update_loop_first_unknown.
Qed.

End PartialUpdate.

(** * The development at concrete inputs *)

(** ** The scenarios of the test-suite *)

(** tests/test_component.py, [test_get_items]: without a wrapper the three
    items come back as a bare list, in order. *)
Example get_items_plain :
  get_items todo_dump [] three_todos [] [] =
    Returned
      (PList [ PDict [("id", PInt 1); ("text", PStr "first")];
               PDict [("id", PInt 2); ("text", PStr "second")];
               PDict [("id", PInt 3); ("text", PStr "third")] ],
       []).
Proof. reflexivity. Qed.

(** [test_get_items_with_wrapper_pagination]: the second page of three, one
    item a page, holds the second item. *)
Example get_items_second_page :
  fst <$> (match get_items todo_dump second_page three_todos [] [] with
           | Returned r => Some r
           | Raised _ => None
           end) =
    Some (PDict
      [ ("count", PInt 3); ("remaining", PInt 1); ("offset", PInt 2);
        ("limit", PInt 1); ("next", PNone); ("previous", PNone);
        ("route_args", PDict []);
        ("items", PList [PDict [("id", PInt 2); ("text", PStr "second")]]) ]).
Proof. reflexivity. Qed.

(** A page asked for without a limit: [page * None] is a [TypeError]. *)
Example add_metadata_offset_without_limit :
  add_metadata three_todos [("offset", PInt 2); ("limit", PNone)] =
    Raised TypeError.
Proof. reflexivity. Qed.

(** tests/test_model.py, [test_update_instance]: the text is replaced, the
    identifier is kept, the instance is saved. *)
Example update_instance_text :
  update_instance save_log TodoModel [("text", PStr "new")] (todo 1 "old") [] =
    (Returned (todo 1 "new"), todo 1 "new", [todo 1 "new"]).
Proof. reflexivity. Qed.

(** ** Pagination *)

Lemma add_metadata_remaining_witness :
  exists context' metadata,
    let q' := paginate three_todos 2 1 in
    let items := [todo 2 "second"] in
    add_metadata three_todos second_page = Returned (q', context')
    /\ dict_get "metadata" context' = Some (PDict metadata)
    /\ dict_get "count" metadata = Some (PInt 3)
    /\ 0 <= 3
    /\ execute q' = items
    /\ dict_get "remaining" metadata = Some (PInt 1).
Proof.
  assert (Hlimit : 0 < 1) by lia. assert (Hoffset : 1 <= 2) by lia.
  exact (add_metadata_remaining three_todos second_page 2 1
           eq_refl eq_refl Hlimit Hoffset).
Defined.

(** Neither an [offset] of 0 nor a negative [limit] makes [add_metadata]
    fail: both calls return. *)
Lemma add_metadata_accepts_invalid_request :
  (0 < 1
   /\ exists context',
        add_metadata three_todos [("offset", PInt 0); ("limit", PInt 5)] =
          Returned (three_todos, context'))
  /\ (-1 < 0
      /\ exists q' context',
           add_metadata three_todos [("offset", PInt 1); ("limit", PInt (-1))] =
             Returned (q', context'))
  /\ ~ raises (add_metadata three_todos [("offset", PInt 0); ("limit", PInt 5)])
  /\ ~ raises (add_metadata three_todos [("offset", PInt 1); ("limit", PInt (-1))]).
Proof.
  split; [split; [lia|eexists; reflexivity]|].
  split; [split; [lia|do 2 eexists; reflexivity]|].
  split; intros [e He]; vm_compute in He; discriminate He.
Qed.

Lemma add_metadata_never_rejects_witness :
  (exists context',
     add_metadata three_todos [("offset", PInt 0); ("limit", PInt (-5))] =
       Returned (three_todos, context'))
  /\ (0 = 0 ->
      exists context',
        add_metadata three_todos [("offset", PInt 0); ("limit", PInt (-5))] =
          Returned (three_todos, context'))
  /\ ~ raises (add_metadata three_todos [("offset", PInt 0); ("limit", PInt (-5))]).
Proof.
  apply (add_metadata_never_rejects three_todos
           [("offset", PInt 0); ("limit", PInt (-5))] 0 (-5));
    [reflexivity | reflexivity | left; reflexivity].
Defined.

(** All items, [remaining = 0] and a null [next] with a limit that is not 0:
    three items asked for with [limit = 5].  And with [limit = 0], a query
    that carries a LIMIT of its own does not return the items of its result
    set: a selection of three limited to two has a count of 2, and three
    items come back. *)
Lemma add_metadata_all_items_with_limit :
  (exists q' context' metadata,
     add_metadata three_todos [("offset", PInt 1); ("limit", PInt 5)] =
       Returned (q', context')
     /\ dict_get "metadata" context' = Some (PDict metadata)
     /\ execute q' = execute three_todos
     /\ dict_get "remaining" metadata = Some (PInt 0)
     /\ dict_get "next" metadata = Some PNone
     /\ dict_get "limit" metadata = Some (PInt 5)
     /\ 5 <> 0)
  /\ (exists q' context' metadata,
        add_metadata first_two_todos [("offset", PInt 1); ("limit", PInt 0)] =
          Returned (q', context')
        /\ dict_get "metadata" context' = Some (PDict metadata)
        /\ dict_get "count" metadata = Some (PInt 2)
        /\ length (execute first_two_todos) = 2%nat
        /\ length (execute q') = 3%nat
        /\ execute q' <> execute first_two_todos).
Proof.
  split.
  - do 3 eexists. split; [reflexivity|]. split; [reflexivity|].
    repeat split; try reflexivity. lia.
  - do 3 eexists. split; [reflexivity|]. split; [reflexivity|].
    repeat split; try reflexivity. intros H.
    apply (f_equal (@length instance)) in H. vm_compute in H. discriminate H.
Qed.

Lemma add_metadata_unlimited_witness :
  exists q' context' metadata,
    add_metadata three_todos wrapper_context = Returned (q', context')
    /\ q' = (if query_bool three_todos then paginate three_todos 1 0
             else three_todos)
    /\ dict_get "metadata" context' = Some (PDict metadata)
    /\ execute q' =
       (if query_bool three_todos then q_rows three_todos else execute three_todos)
    /\ (q_limit three_todos = None -> q_offset three_todos = None ->
        execute q' = execute three_todos)
    /\ dict_get "remaining" metadata = Some (PInt 0)
    /\ dict_get "next" metadata = Some PNone.
Proof.
  apply (add_metadata_unlimited three_todos wrapper_context 1);
    [reflexivity | reflexivity | lia].
Defined.

(** The second page of three, one item a page, with a context that carries
    no URLs: [remaining] is 1 and [offset] is 2, yet both markers are null. *)
Lemma add_metadata_markers_null :
  exists q' context' metadata,
    add_metadata three_todos second_page = Returned (q', context')
    /\ dict_get "metadata" context' = Some (PDict metadata)
    /\ dict_get "remaining" metadata = Some (PInt 1)
    /\ dict_get "next" metadata = Some PNone
    /\ dict_get "offset" metadata = Some (PInt 2)
    /\ dict_get "previous" metadata = Some PNone.
Proof.
  do 3 eexists. split; [reflexivity|]. split; [reflexivity|].
  repeat split; reflexivity.
Qed.

Lemma add_metadata_markers_witness :
  exists q' context' metadata remaining,
    add_metadata three_todos second_page = Returned (q', context')
    /\ dict_get "metadata" context' = Some (PDict metadata)
    /\ dict_get "remaining" metadata = Some (PInt remaining)
    /\ dict_get "next" metadata =
       Some (if 0 <? remaining
             then dict_get_default second_page "next" PNone else PNone)
    /\ dict_get "previous" metadata =
       Some (if 1 <? 2
             then dict_get_default second_page "previous" PNone else PNone)
    /\ (dict_get_default second_page "next" PNone <> PNone ->
        (dict_get "next" metadata <> Some PNone <-> 0 < remaining))
    /\ (dict_get_default second_page "previous" PNone <> PNone ->
        (dict_get "previous" metadata <> Some PNone <-> 1 < 2)).
Proof.
  apply (add_metadata_markers three_todos second_page 2 1); reflexivity.
Defined.

Lemma add_metadata_offset_zero_witness :
  exists context' metadata,
    add_metadata three_todos [("offset", PInt 0); ("limit", PInt 2)] =
      Returned (three_todos, context')
    /\ dict_get "metadata" context' = Some (PDict metadata)
    /\ dict_get "remaining" metadata = Some (PInt 0)
    /\ dict_get "next" metadata = Some PNone
    /\ dict_get "previous" metadata = Some PNone.
Proof.
  apply (add_metadata_offset_zero three_todos
           [("offset", PInt 0); ("limit", PInt 2)]).
  reflexivity.
Defined.

(** ** The response envelope *)

(** The envelope of a wrapped list response has an eighth top-level key,
    [route_args]. *)
Lemma get_items_envelope_has_route_args :
  exists envelope context',
    get_items todo_dump wrapper_context three_todos [] [] =
      Returned (PDict envelope, context')
    /\ dict_keys envelope =
       ["count"; "remaining"; "offset"; "limit"; "next"; "previous";
        "route_args"; "items"]
    /\ dict_has "route_args" envelope = true
    /\ dict_keys envelope <>
       ["count"; "remaining"; "offset"; "limit"; "next"; "previous"; "items"].
Proof.
  do 2 eexists. split; [reflexivity|]. repeat split; try reflexivity.
  discriminate.
Qed.

Lemma get_items_envelope_witness :
  exists envelope context',
    get_items todo_dump view_context three_todos [] view_context =
      Returned (PDict envelope, context')
    /\ dict_keys envelope =
       ["count"; "remaining"; "offset"; "limit"; "next"; "previous";
        "route_args"; "items"]
    /\ dict_get "items" envelope =
       Some (PList (map todo_dump (execute three_todos)))
    /\ dict_get "count" envelope = Some (PInt (count three_todos)).
Proof.
  eapply (get_items_envelope todo_dump view_context three_todos []
            view_context three_todos); reflexivity.
Defined.

(** A component whose context has no ['wrapper'] but still holds a
    ['metadata'] entry, called with that context as the view does: the result
    is a dict with a [count] key, not a bare list. *)
Lemma get_items_envelope_without_wrapper :
  truthy (dict_get_default stale_context "wrapper" PNone) = false
  /\ get_items todo_dump stale_context three_todos [] stale_context =
     Returned
       (PDict [ ("count", PInt 7);
                ("items", PList (map todo_dump (execute three_todos))) ],
        [ ("metadata",
           PDict [ ("count", PInt 7);
                   ("items", PList (map todo_dump (execute three_todos))) ]) ]).
Proof. split; reflexivity. Qed.

Lemma get_items_bare_list_witness :
  (truthy (dict_get_default [] "wrapper" PNone) = false ->
   get_items todo_dump [] three_todos [] [] =
     Returned (PList (map todo_dump (execute three_todos)), []))
  /\ (forall envelope context',
       get_items todo_dump [] three_todos [] [] =
         Returned (PDict envelope, context') ->
       truthy (dict_get_default [] "wrapper" PNone) = true).
Proof.
  apply (get_items_bare_list todo_dump [] three_todos [] []). reflexivity.
Defined.

(** ** Partial update *)

(** An update map with a known key before an unknown one: the call fails, and
    the instance keeps the new [text]. *)
Lemma update_instance_partial_mutation :
  ("bogus" ∉ fields TodoModel)
  /\ exists self',
      update_instance save_log TodoModel
        [("text", PStr "new"); ("bogus", PStr "x")] (todo 1 "old") [] =
        (Raised (AttributeError "bogus"), self', [])
      /\ todo 1 "old" !! "text" = Some (PStr "old")
      /\ self' !! "text" = Some (PStr "new")
      /\ self' <> todo 1 "old".
Proof.
  split.
  - not_field.
  - eexists. split; [reflexivity|]. split; [reflexivity|].
    split; [reflexivity|]. intros H.
    apply (f_equal (fun m : instance => m !! "text")) in H.
    vm_compute in H. discriminate H.
Qed.

Lemma update_instance_unknown_key_witness :
  exists self',
    update_instance save_log TestModel
      ([("text", PStr "new")] ++ ("invalid", PStr "test") :: [])
      (todo 1 "old") [] =
      (Raised (AttributeError "invalid"), self', [])
    /\ self' = fold_left (fun s kv => setattr TestModel s kv.1 kv.2)
                 [("text", PStr "new")] (todo 1 "old")
    /\ (forall name, name ∉ assigned_fields TestModel [("text", PStr "new")] ->
        self' !! name = todo 1 "old" !! name)
    /\ ([("text", PStr "new")] = [] -> self' = todo 1 "old").
Proof.
  apply (update_instance_unknown_key save_log TestModel
           [("text", PStr "new")] "invalid" (PStr "test") [] (todo 1 "old") []).
  - constructor; [|constructor]. is_field.
  - not_field.
Defined.



Lemma update_instance_rejected_not_saved_witness :
  exists key self',
    key ∈ dict_keys [("text", PStr "new"); ("invalid", PStr "test")]
    /\ (key ∉ fields TestModel)
    /\ update_instance save_log TestModel
         [("text", PStr "new"); ("invalid", PStr "test")] (todo 1 "old") [] =
       (Raised (AttributeError key), self', []).
Proof.
  apply (update_instance_rejected_not_saved save_log TestModel
           [("text", PStr "new"); ("invalid", PStr "test")] (todo 1 "old") []).
  exists "invalid". split.
  - simpl. right. left.
  - not_field.
Defined.

(** * Further properties of the code *)

(** ** Pages of [add_metadata] *)

Lemma dict_set_set key v w d :
  dict_set key v (dict_set key w d) = dict_set key v d.
Proof.
  induction d as [|[k u] rest IH]; simpl.
  - now rewrite String.eqb_refl.
  - destruct (String.eqb key k) eqn:E; simpl; rewrite E; [reflexivity|].
    now rewrite IH.
Qed.

Lemma dict_get_default_set_ne key key' v d default :
  key <> key' ->
  dict_get_default (dict_set key v d) key' default = dict_get_default d key' default.
Proof. intros Hne. unfold dict_get_default. now rewrite dict_get_set_ne. Qed.

(** What [paginate] selects from a query without LIMIT and OFFSET. *)
Lemma execute_paginate_select rows offset limit :
  0 < limit -> 1 <= offset ->
  execute (paginate (select rows) offset limit) =
    firstn (Z.to_nat limit) (skipn (Z.to_nat (limit * (offset - 1))) rows).
Proof.
  intros Hl Ho. unfold execute, paginate. simpl.
  replace (0 <? offset) with true by lia. replace (0 <? limit) with true by lia.
  now rewrite (Z.mul_comm (offset - 1) limit).
Qed.

(** The page and the [remaining] that [add_metadata] computes on a plain
    [select], for a positive limit and a page number counted from 1. *)
Lemma add_metadata_select rows context offset limit :
  dict_get_default context "offset" (PInt 1) = PInt offset ->
  dict_get_default context "limit" (PInt 0) = PInt limit ->
  0 < limit -> 1 <= offset ->
  exists q',
    add_metadata (select rows) context =
      Returned (q', dict_set "metadata" (PDict
        [ ("count", PInt (Z.of_nat (length rows)));
          ("remaining", PInt (Z.max (Z.of_nat (length rows) - limit * offset) 0));
          ("offset", PInt offset);
          ("limit", PInt limit);
          ("next", if 0 <? Z.max (Z.of_nat (length rows) - limit * offset) 0
                   then dict_get_default context "next" PNone else PNone);
          ("previous", if 1 <? offset
                       then dict_get_default context "previous" PNone else PNone);
          ("route_args", dict_get_default context "route_args" (PDict [])) ])
        context)
    /\ execute q' =
       firstn (Z.to_nat limit) (skipn (Z.to_nat (limit * (offset - 1))) rows).
Proof.
  intros Ho Hl Hlim Hoff.
  destruct (add_metadata_int (select rows) context offset limit Ho Hl)
    as (q' & remaining & Hq & ->).
  assert (Hp : 0 <= limit * (offset - 1)) by nia.
  assert (Hlo : limit * offset = limit * (offset - 1) + limit) by ring.
  exists q'.
  assert (Hx : execute q' =
               firstn (Z.to_nat limit) (skipn (Z.to_nat (limit * (offset - 1))) rows)
               /\ remaining = Z.max (Z.of_nat (length rows) - limit * offset) 0).
  { destruct rows as [|r rows].
    - simpl in Hq. destruct Hq as [-> ->]. rewrite skipn_nil, firstn_nil.
      split; [reflexivity|]. simpl. lia.
    - replace (query_bool (select (r :: rows))) with true in Hq by reflexivity.
      replace (offset =? 0) with false in Hq by lia. simpl in Hq.
      destruct Hq as [-> ->].
      split; [now apply execute_paginate_select|].
      unfold count. rewrite execute_paginate_select, execute_select by lia.
      rewrite length_firstn, length_skipn, Hlo.
      generalize (length (r :: rows)), (limit * (offset - 1)), Hp.
      intros n P HP. lia. }
  destruct Hx as [Hx ->]. split; [|exact Hx].
  unfold count. now rewrite execute_select.
Qed.

Section Pages.

Variables (rows : list instance) (q : query) (context : pydict).
Variables (offset limit : Z).
Hypothesis offset_entry : dict_get_default context "offset" (PInt 1) = PInt offset.
Hypothesis limit_entry : dict_get_default context "limit" (PInt 0) = PInt limit.

(** X1: with a positive limit and a page number other than 0, the query
    [add_metadata] returns never yields more than [limit] records. *)
Theorem add_metadata_page_size :
  0 < limit -> offset <> 0 ->
  exists q' context',
    add_metadata q context = Returned (q', context')
    /\ Z.of_nat (length (execute q')) <= limit.
Proof.
  intros Hlim Hoff.
  destruct (add_metadata_int q context offset limit offset_entry limit_entry)
    as (q' & remaining & Hq & ->).
  do 2 eexists. split; [reflexivity|].
  replace (offset =? 0) with false in Hq by lia.
  destruct (query_bool q) eqn:Hb; simpl in Hq; destruct Hq as [-> _].
  - unfold execute, paginate. simpl.
    replace (0 <? limit) with true by lia. rewrite length_firstn. lia.
  - rewrite (query_bool_false q Hb). simpl. lia.
Qed.

End Pages.

Section SelectPages.

Variables (rows : list instance) (context : pydict) (offset limit : Z).
Hypothesis offset_entry : dict_get_default context "offset" (PInt 1) = PInt offset.
Hypothesis limit_entry : dict_get_default context "limit" (PInt 0) = PInt limit.
Hypothesis limit_positive : 0 < limit.
Hypothesis offset_positive : 1 <= offset.

(** X2: on a query without LIMIT and OFFSET of its own, page [offset] of
    size [limit] is the slice of the result set that starts after
    [limit * (offset - 1)] records, and [remaining] is the number of records
    after the page, [max(total - limit * offset, 0)]. *)
Theorem add_metadata_select_page :
  exists q' context' metadata,
    add_metadata (select rows) context = Returned (q', context')
    /\ dict_get "metadata" context' = Some (PDict metadata)
    /\ execute q' =
       firstn (Z.to_nat limit) (skipn (Z.to_nat (limit * (offset - 1))) rows)
    /\ dict_get "remaining" metadata =
       Some (PInt (Z.max (Z.of_nat (length rows) - limit * offset) 0)).
Proof.
  destruct (add_metadata_select rows context offset limit) as (q' & -> & Hx);
    auto.
  do 3 eexists. split; [reflexivity|]. split; [apply dict_get_set_eq|].
  split; [exact Hx|reflexivity].
Qed.

(** X3: a page that starts at or after the end of the result set is empty,
    its [remaining] is 0 and its [next] marker is null. *)
Theorem add_metadata_beyond_last_page :
  Z.of_nat (length rows) <= limit * (offset - 1) ->
  exists q' context' metadata,
    add_metadata (select rows) context = Returned (q', context')
    /\ dict_get "metadata" context' = Some (PDict metadata)
    /\ execute q' = []
    /\ dict_get "remaining" metadata = Some (PInt 0)
    /\ dict_get "next" metadata = Some PNone.
Proof.
  intros Hend.
  destruct (add_metadata_select rows context offset limit) as (q' & -> & Hx);
    auto.
  assert (Hr : Z.max (Z.of_nat (length rows) - limit * offset) 0 = 0) by nia.
  do 3 eexists. split; [reflexivity|]. split; [apply dict_get_set_eq|].
  split; [|simpl; rewrite Hr; split; reflexivity].
  rewrite Hx, skipn_all2; [apply firstn_nil|]. lia.
Qed.

End SelectPages.

Section Requests.

Variables (q : query) (context : pydict).

(** X5: for a valid request ([offset >= 1], [limit >= 0]), [remaining] lies
    between 0 and the total count. *)
Theorem add_metadata_remaining_bounds (offset limit : Z) :
  dict_get_default context "offset" (PInt 1) = PInt offset ->
  dict_get_default context "limit" (PInt 0) = PInt limit ->
  1 <= offset -> 0 <= limit ->
  exists q' context' metadata remaining,
    add_metadata q context = Returned (q', context')
    /\ dict_get "metadata" context' = Some (PDict metadata)
    /\ dict_get "remaining" metadata = Some (PInt remaining)
    /\ 0 <= remaining <= count q.
Proof.
  intros Ho Hl Hoff Hlim.
  destruct (add_metadata_int q context offset limit Ho Hl)
    as (q' & remaining & Hq & ->).
  exists q'. eexists. eexists. exists remaining.
  split; [reflexivity|]. split; [apply dict_get_set_eq|].
  split; [reflexivity|].
  pose proof (count_nonneg q). pose proof (count_nonneg q').
  destruct (query_bool q && negb (offset =? 0)); destruct Hq as [_ ->]; nia.
Qed.

(** X6: [add_metadata] raises [TypeError] when the [offset] is no number
    ([None], a string, a list or a dict), and when the query is not empty,
    the [offset] is truthy and the [limit] is no number. *)
Theorem add_metadata_type_error :
  raises (as_int (dict_get_default context "offset" (PInt 1)))
  \/ (query_bool q = true
      /\ truthy (dict_get_default context "offset" (PInt 1)) = true
      /\ raises (as_int (dict_get_default context "limit" (PInt 0)))) ->
  add_metadata q context = Raised TypeError.
Proof.
  assert (Hint : forall v, raises (as_int v) -> as_int v = Raised TypeError).
  { intros v [e H]. destruct v; simpl in *; congruence. }
  unfold add_metadata, py_gt.
  intros [Ho|(Hq & Ht & Hl)].
  - apply Hint in Ho. rewrite Ho.
    now destruct (query_bool q && truthy _).
  - apply Hint in Hl. rewrite Hq, Ht, Hl. cbn [andb bind].
    destruct (as_int (dict_get_default context "offset" (PInt 1))) as [o|e] eqn:Ho;
      cbn [bind]; [reflexivity|].
    f_equal. destruct (dict_get_default context "offset" (PInt 1));
      simpl in Ho; congruence.
Qed.

(** X7: [add_metadata] writes the ['metadata'] entry of the context and
    nothing else, and the context it returns is stable: the same call on the
    returned context returns the same query and the same context. *)
Theorem add_metadata_context_frame q' context' :
  add_metadata q context = Returned (q', context') ->
  (forall key, key <> "metadata" -> dict_get key context' = dict_get key context)
  /\ add_metadata q context' = Returned (q', context').
Proof.
  intros Hadd.
  destruct (add_metadata_returned _ _ _ _ Hadd) as (remaining & prev & Hctx).
  split.
  - intros key Hne. subst context'. apply dict_get_set_ne. congruence.
  - revert Hadd. unfold add_metadata. subst context'.
    rewrite !dict_get_default_set_ne by discriminate.
    destruct (if query_bool q && truthy (dict_get_default context "offset" (PInt 1))
              then _ else _) as [[q1 r1]|]; simpl; [|discriminate].
    destruct (py_gt (dict_get_default context "offset" (PInt 1)) 1); simpl;
      [|discriminate].
    intros H. injection H as <- H. now rewrite dict_set_set, H.
Qed.

End Requests.

(** ** The hook and the list response *)

Section Wrapping.

Variable dump_one : instance -> pyval.

(** X8: when the hook wraps, the envelope is the metadata dict with the data
    under ['items'] and every other entry as it was, and this envelope also
    replaces the ['metadata'] entry of the context, whose other entries are
    untouched. *)
Theorem wrap_data_envelope context metadata data :
  dict_get "metadata" context = Some (PDict metadata) ->
  truthy (dict_get_default context "child" PNone) = false ->
  exists envelope context',
    wrap_data context data = Returned (PDict envelope, context')
    /\ dict_get "items" envelope = Some data
    /\ (forall key, key <> "items" -> dict_get key envelope = dict_get key metadata)
    /\ dict_get "metadata" context' = Some (PDict envelope)
    /\ (forall key, key <> "metadata" -> dict_get key context' = dict_get key context).
Proof.
  intros Hm Hc. unfold wrap_data, dict_has. rewrite Hm, Hc. simpl.
  do 2 eexists. split; [reflexivity|].
  split; [apply dict_get_set_eq|].
  split; [intros key Hne; apply dict_get_set_ne; congruence|].
  split; [apply dict_get_set_eq|].
  intros key Hne. apply dict_get_set_ne. congruence.
Qed.

(** X9: with a truthy ['wrapper'], [get_items] never looks at its [context]
    and [request_args] arguments: any two calls on the same component and
    query give the same result. *)
Theorem get_items_wrapper_ignores_arguments self_context base args1 args2 c1 c2 :
  truthy (dict_get_default self_context "wrapper" PNone) = true ->
  get_items dump_one self_context base args1 c1 =
  get_items dump_one self_context base args2 c2.
Proof. intros Hw. unfold get_items, search. now rewrite Hw. Qed.

(** X10: with a truthy ['wrapper'] and a truthy ['child'], [get_items] still
    narrows the query and stores the metadata in the context, but it returns
    the bare list of the page's records. *)
Theorem get_items_child self_context base args context q' context_md :
  truthy (dict_get_default self_context "wrapper" PNone) = true ->
  truthy (dict_get_default self_context "child" PNone) = true ->
  add_metadata base self_context = Returned (q', context_md) ->
  get_items dump_one self_context base args context =
    Returned (PList (map dump_one (execute q')), context_md)
  /\ dict_has "metadata" context_md = true.
Proof.
  intros Hw Hc Hadd.
  destruct (add_metadata_returned _ _ _ _ Hadd) as (remaining & prev & Hctx).
  unfold get_items, search. rewrite Hw, Hadd. simpl.
  unfold dump_many, wrap_data, dict_has. subst context_md.
  rewrite dict_get_set_eq, dict_get_default_set_ne, Hc by discriminate.
  now split.
Qed.

End Wrapping.

(** ** More on partial update *)






(** A loop over keys that all name fields makes every assignment. *)
Lemma update_loop_all_fields (cls : model_class) data (self : instance) :
  Forall (fun kv => kv.1 ∈ fields cls) data ->
  update_loop cls data self =
    (None, fold_left (fun s kv => setattr cls s kv.1 kv.2) data self).
Proof.
  intros Hall. revert self. induction Hall as [|[k v] rest Hk _ IH]; intros self.
  - reflexivity.
  - rewrite update_loop_cons. simpl in Hk.
    apply elem_of_fields in Hk as [name Hk]. rewrite Hk. apply IH.
Qed.

Section MorePartialUpdate.

Context {DB : Type}.
Variable save : instance -> DB -> DB.
Variable cls : model_class.

(** X11: the loop of [update_instance] runs to its end, so that [save()] is
    reached, exactly when every key of the update map names a declared field
    (so always for the empty map); otherwise it ends with [AttributeError]
    for a key of the map that names none, and [save()] is not reached. *)
Theorem update_loop_completes_iff data (self : instance) :
  ((forall key, key ∈ dict_keys data -> key ∈ fields cls)
   <-> exists self', update_loop cls data self = (None, self'))
  /\ (forall e self',
        update_loop cls data self = (Some e, self') ->
        exists key,
          e = AttributeError key /\ key ∈ dict_keys data /\ key ∉ fields cls).
Proof.
  assert (Hkeys : forall d : pydict,
            Forall (fun kv => kv.1 ∈ fields cls) d ->
            forall key, key ∈ dict_keys d -> key ∈ fields cls).
  { intros d Hall key Hin. unfold dict_keys in Hin.
    apply list_elem_of_fmap in Hin as ([k v] & -> & Hin).
    rewrite Forall_forall in Hall. apply (Hall (k, v)), Hin. }
  split; [split|].
  - intros Hall. eexists. apply update_loop_all_fields.
    apply Forall_forall. intros [k v] Hin. apply Hall.
    unfold dict_keys. apply list_elem_of_fmap. now exists (k, v).
  - intros [self' H]. apply update_loop_ok in H as [Hall _]. now apply Hkeys.
  - intros e self' H.
    destruct (decide (Forall (fun kv => kv.1 ∈ fields cls) data)) as [Hall|Hbad].
    + rewrite update_loop_all_fields in H by exact Hall. discriminate H.
    + apply not_Forall_Exists in Hbad; [|intros kv; apply _].
      apply Exists_exists in Hbad as ([k v] & Hin & Hk).
      destruct (first_unknown_key cls data)
        as (pre & key & val & post & -> & Hpre & Hkey).
      { exists k. split; [|exact Hk]. unfold dict_keys.
        apply list_elem_of_fmap. now exists (k, v). }
      rewrite update_loop_first_unknown in H by assumption.
      injection H as <- _. exists key. split; [reflexivity|]. split; [|exact Hkey].
      unfold dict_keys. rewrite map_app. apply elem_of_app. right. simpl. left.
Qed.



End MorePartialUpdate.

(** ** Walking the pages *)

Lemma dict_get_default_set_eq key v d default :
  dict_get_default (dict_set key v d) key default = v.
Proof. unfold dict_get_default. now rewrite dict_get_set_eq. Qed.

(** Consecutive slices of width [l], from slice [s] on, make up the list from
    position [l * s] on. *)
Lemma slices_cover {A : Type} (l : nat) (all : list A) (n s : nat) :
  (length all <= (s + n) * l)%nat ->
  flat_map (fun k => firstn l (skipn (l * k) all)) (seq s n) = skipn (l * s) all.
Proof.
  revert s. induction n as [|n IH]; intros s Hlen; simpl.
  - symmetry. apply skipn_all2. lia.
  - rewrite IH by lia.
    replace (l * S s)%nat with (l + l * s)%nat by lia.
    rewrite <- skipn_skipn. apply firstn_skipn.
Qed.

(** X4: on a query without LIMIT and OFFSET of its own, the pages 1 to [n] of
    size [limit], one after the other, are the whole result set in order,
    once [n] pages are enough to hold it: no record is skipped and none comes
    twice. *)
Theorem add_metadata_pages_cover rows context limit (n : nat) :
  dict_get_default context "limit" (PInt 0) = PInt limit ->
  0 < limit ->
  Z.of_nat (length rows) <= limit * Z.of_nat n ->
  flat_map
    (fun page =>
       returned_items
         (add_metadata (select rows)
            (dict_set "offset" (PInt (Z.of_nat page)) context)))
    (seq 1 n)
  = rows.
Proof.
  intros Hl Hlim Hlen.
  rewrite <- seq_shift, flat_map_concat_map, map_map, <- flat_map_concat_map.
  rewrite (flat_map_ext _
             (fun k => firstn (Z.to_nat limit) (skipn (Z.to_nat limit * k) rows))).
  - rewrite slices_cover; [now rewrite Nat.mul_0_r|]. nia.
  - intros k.
    destruct (add_metadata_select rows
                (dict_set "offset" (PInt (Z.of_nat (S k))) context)
                (Z.of_nat (S k)) limit) as (q' & -> & Hx); try lia.
    + apply dict_get_default_set_eq.
    + now rewrite dict_get_default_set_ne by discriminate.
    + simpl. rewrite Hx. do 2 f_equal. nia.
Qed.

(** ** Stripping request data *)

Lemma filter_keep {A : Type} (P : A -> Prop) `{!forall x, Decision (P x)} (l : list A) :
  Forall P l -> filter P l = l.
Proof.
  induction 1 as [|x l Hx _ IH]; [reflexivity|].
  now rewrite filter_cons_True, IH.
Qed.

Lemma dict_keys_filter_elem (P : string * pyval -> Prop)
    `{!forall x, Decision (P x)} (d : pydict) key :
  key ∈ dict_keys (filter P d) -> key ∈ dict_keys d.
Proof.
  unfold dict_keys. intros Hin.
  apply list_elem_of_fmap in Hin as (kv & -> & Hin).
  apply list_elem_of_filter in Hin as [_ Hin].
  apply list_elem_of_fmap. now exists kv.
Qed.

Lemma NoDup_keys_filter (P : string * pyval -> Prop)
    `{!forall x, Decision (P x)} (d : pydict) :
  NoDup (dict_keys d) -> NoDup (dict_keys (filter P d)).
Proof.
  induction d as [|[k v] rest IH]; intros Hnd; [constructor|].
  simpl in Hnd. apply NoDup_cons in Hnd as [Hk Hnd].
  rewrite filter_cons. destruct (decide (P (k, v))); [|now apply IH].
  simpl. apply NoDup_cons. split; [|now apply IH].
  intros Hin. apply Hk. eapply dict_keys_filter_elem, Hin.
Qed.

(** On a dict, [pop] removes the entry of the key. *)
Lemma dict_pop_filter key (d : pydict) :
  NoDup (dict_keys d) -> dict_pop key d = filter (fun kv => kv.1 <> key) d.
Proof.
  induction d as [|[k v] rest IH]; intros Hnd; [reflexivity|].
  simpl in Hnd. apply NoDup_cons in Hnd as [Hk Hnd]. simpl.
  destruct (String.eqb_spec key k) as [->|Hne].
  - rewrite filter_cons_False by (simpl; congruence).
    symmetry. apply filter_keep. apply Forall_forall. intros [k' v'] Hin Heq.
    simpl in Heq. subst k'. apply Hk. unfold dict_keys.
    apply list_elem_of_fmap. now exists (k, v').
  - rewrite filter_cons_True by (simpl; congruence). now rewrite IH.
Qed.

Lemma strip_fold (fields : list string) (d : pydict) :
  NoDup (dict_keys d) ->
  fold_left (fun d field => dict_pop field d) fields d =
    filter (fun kv => kv.1 ∉ fields) d.
Proof.
  revert d. induction fields as [|f fs IH]; intros d Hnd; simpl.
  - symmetry. apply filter_keep, Forall_forall. intros kv _. apply not_elem_of_nil.
  - rewrite dict_pop_filter by exact Hnd.
    rewrite IH by now apply NoDup_keys_filter.
    rewrite list_filter_filter. apply list_filter_iff.
    intros kv. rewrite not_elem_of_cons. tauto.
Qed.

(** Looking a key up in a dict without the entries of some keys. *)
Lemma dict_get_strip (fields : list string) (d : pydict) key :
  dict_get key (filter (fun kv => kv.1 ∉ fields) d) =
    if decide (key ∈ fields) then None else dict_get key d.
Proof.
  induction d as [|[k v] rest IH]; [now destruct (decide (key ∈ fields))|].
  rewrite filter_cons. simpl.
  destruct (decide (k ∉ fields)) as [Hk|Hk]; simpl;
    destruct (String.eqb_spec key k) as [->|Hne]; try exact IH.
  - destruct (decide (k ∈ fields)); [contradiction|reflexivity].
  - rewrite IH. destruct (decide (k ∈ fields)); [reflexivity|contradiction].
Qed.

(** X14: on a dict (its keys are unique), [_strip_data] removes exactly the
    entries whose key is one of [remove_fields]: the other entries stay, in
    their order and with their values, and a removed key is no longer found. *)
Theorem strip_data_dict (fields : list string) (d : pydict) :
  NoDup (dict_keys d) ->
  _strip_data fields (PDict d) =
    Returned (PDict (filter (fun kv => kv.1 ∉ fields) d))
  /\ forall key,
       dict_get key (filter (fun kv => kv.1 ∉ fields) d) =
         if decide (key ∈ fields) then None else dict_get key d.
Proof.
  intros Hnd. split.
  - destruct fields as [|f fs].
    + simpl. do 2 f_equal. symmetry.
      apply filter_keep, Forall_forall. intros kv _. apply not_elem_of_nil.
    + unfold _strip_data. now rewrite strip_fold.
  - intros key. apply dict_get_strip.
Qed.

Section Serialization.

Variable cls : schema_class.

(** X15: for a request whose mimetype is neither [multipart/form-data] nor
    [application/json], [for_serialization] raises [AttributeError], whatever
    the body is. *)
Theorem for_serialization_mimetype (req : request) :
  mimetype req <> "multipart/form-data" ->
  mimetype req <> "application/json" ->
  for_serialization cls req =
    Failure (PythonError (AttributeError "Incorrect mimetype for serialization")).
Proof.
  intros Hf Hj. unfold for_serialization.
  destruct (String.eqb_spec (mimetype req) "multipart/form-data"); [contradiction|].
  destruct (String.eqb_spec (mimetype req) "application/json"); [contradiction|].
  reflexivity.
Qed.

(** X16: a JSON request whose body is a list, sent to a schema that has
    fields to remove, makes [for_serialization] fail with [TypeError]: the
    fields are popped from the list itself. *)
Theorem for_serialization_list_body (req : request) items :
  mimetype req = "application/json" ->
  json req = PList items ->
  remove_fields cls <> [] ->
  for_serialization cls req = Failure (PythonError TypeError).
Proof.
  intros Hm Hj Hr. unfold for_serialization. rewrite Hm, Hj. simpl.
  destruct (remove_fields cls); [contradiction|]. reflexivity.
Qed.

(** X17: when [for_serialization] returns a schema, the schema is for many
    records exactly when the request is a JSON request whose body is a list
    of dicts (the empty list included); its context is the fixed one, and the
    request keeps its mimetype. *)
Theorem for_serialization_many (req req' : request) (sch : schema) :
  for_serialization cls req = Success (sch, req') ->
  (sch_many sch = true <->
     mimetype req = "application/json"
     /\ exists items, json req = PList items
                      /\ Forall (fun v => is_dict v = true) items)
  /\ sch_context sch =
       PDict [ ("return_dict", PBool true);
               ("convert_fks", PBool false);
               ("convert_dates", PBool false) ]
  /\ mimetype req' = mimetype req.
Proof.
  unfold for_serialization, GenericSchema_init. intros H.
  destruct (String.eqb_spec (mimetype req) "multipart/form-data") as [Hf|Hf].
  - destruct (strip_form (remove_fields cls) (form req)); simpl in H; [|discriminate H].
    destruct (mark_attr set_required _ _); simpl in H; [|discriminate H].
    destruct (mark_attr set_allow_none _ _); simpl in H; [|discriminate H].
    injection H as <- <-. simpl. split; [|split; reflexivity].
    split; [discriminate|]. intros [Hj _]. rewrite Hf in Hj. discriminate Hj.
  - destruct (String.eqb_spec (mimetype req) "application/json") as [Hj|Hj];
      [|discriminate H].
    destruct (_strip_data (remove_fields cls) (json req)); simpl in H;
      [|discriminate H].
    destruct (mark_attr set_required _ _); simpl in H; [|discriminate H].
    destruct (mark_attr set_allow_none _ _); simpl in H; [|discriminate H].
    injection H as <- <-. simpl. split; [|split; reflexivity].
    destruct (json req) as [| | | |items|]; try (split; [discriminate|]);
      try (intros [_ (items & Hitems & _)]; discriminate Hitems).
    rewrite forallb_forall. split.
    + intros Hall. split; [exact Hj|]. exists items. split; [reflexivity|].
      apply Forall_forall. intros v Hv. apply Hall. now apply list_elem_of_In.
    + intros [_ (items' & Hitems & Hall)]. injection Hitems as <-.
      rewrite Forall_forall in Hall.
      intros v Hv. apply Hall. now apply list_elem_of_In.
Qed.

End Serialization.

(** ** Setting up a schema *)

Lemma mark_fields_cons (set : field_opts -> field_opts) name
    (rest : list pyval) (fields : gmap string field_opts) :
  mark_fields set (PStr name :: rest) fields =
    match fields !! name with
    | Some f => mark_fields set rest (<[name := set f]> fields)
    | None => Failure (KeyError (PStr name))
    end.
Proof. simpl. now destruct (fields !! name). Qed.

(** Marking declared fields: every listed field is marked, the others are
    left alone. *)
Lemma mark_fields_declared (set : field_opts -> field_opts)
    (names : list string) (fields : gmap string field_opts) :
  (forall f, set (set f) = set f) ->
  Forall (fun name => name ∈ dom fields) names ->
  exists fields',
    mark_fields set (PStr <$> names) fields = Success fields'
    /\ forall name,
         fields' !! name =
           (fun f => if bool_decide (name ∈ names) then set f else f)
             <$> fields !! name.
Proof.
  intros Hset Hall. revert fields Hall.
  induction names as [|n ns IH]; intros fields Hall.
  - exists fields. split; [reflexivity|]. intros name.
    now destruct (fields !! name).
  - apply Forall_cons in Hall as [Hn Hns].
    apply elem_of_dom in Hn as [f Hf].
    rewrite fmap_cons, mark_fields_cons, Hf.
    destruct (IH (<[n := set f]> fields)) as (fields' & -> & Hlook).
    { eapply Forall_impl; [exact Hns|]. intros name Hname.
      rewrite dom_insert_L. now apply elem_of_union_r. }
    exists fields'. split; [reflexivity|]. intros name. rewrite Hlook.
    destruct (decide (name = n)) as [->|Hne].
    + rewrite lookup_insert_eq, Hf. simpl.
      rewrite (bool_decide_eq_true_2 (n ∈ n :: ns)) by left.
      now destruct (bool_decide (n ∈ ns)); rewrite ?Hset.
    + rewrite lookup_insert_ne by congruence.
      destruct (fields !! name); [simpl|reflexivity].
      f_equal. apply (f_equal (fun b : bool => if b then set f0 else f0)).
      apply bool_decide_ext. rewrite elem_of_cons. tauto.
Qed.

Lemma mark_attr_declared (set : field_opts -> field_opts)
    (names : list string) (fields : gmap string field_opts) :
  (forall f, set (set f) = set f) ->
  Forall (fun name => name ∈ dom fields) names ->
  exists fields',
    mark_attr set (PList (PStr <$> names)) fields = Success fields'
    /\ forall name,
         fields' !! name =
           (fun f => if bool_decide (name ∈ names) then set f else f)
             <$> fields !! name.
Proof.
  intros Hset Hall. destruct names as [|n ns].
  - exists fields. split; [reflexivity|]. intros name.
    now destruct (fields !! name).
  - destruct (mark_fields_declared set (n :: ns) fields Hset Hall)
      as (fields' & H & Hlook).
    exists fields'. split; [|exact Hlook]. rewrite fmap_cons in *. exact H.
Qed.

(** Marking stops at the first listed name that is not a field. *)
Lemma mark_attr_undeclared (set : field_opts -> field_opts)
    (pre : list string) name (post : list string)
    (fields : gmap string field_opts) :
  Forall (fun name => name ∈ dom fields) pre ->
  name ∉ dom fields ->
  mark_attr set (PList (PStr <$> (pre ++ name :: post)%list)) fields =
    Failure (KeyError (PStr name)).
Proof.
  intros Hpre Hname.
  assert (H : mark_fields set (PStr <$> (pre ++ name :: post)%list) fields =
              Failure (KeyError (PStr name))).
  { revert fields Hpre Hname. induction pre as [|n ns IH]; intros fields Hpre Hname.
    - simpl app. rewrite fmap_cons, mark_fields_cons.
      apply not_elem_of_dom in Hname. now rewrite Hname.
    - apply Forall_cons in Hpre as [Hn Hns].
      apply elem_of_dom in Hn as [f Hf]. simpl app.
      rewrite fmap_cons, mark_fields_cons, Hf. apply IH.
      + eapply Forall_impl; [exact Hns|]. intros x Hx.
        rewrite dom_insert_L. now apply elem_of_union_r.
      + rewrite dom_insert_L, elem_of_union, elem_of_singleton.
        intros [->|Hin]; [|contradiction].
        apply Hname. apply elem_of_dom. eauto. }
  destruct pre; simpl app in *; rewrite fmap_cons in *; exact H.
Qed.

Section SchemaInit.

Variables (cls : schema_class) (fields : gmap string field_opts).
Variables (exclude context : pyval) (many : bool).

(** X18: when the class attributes [required] and [allow_none] list declared
    fields only, [GenericSchema.__init__] succeeds; a field is then required
    if it was declared so or is listed in [required], it allows [None] if it
    was declared so or is listed in [allow_none], and no field is added or
    dropped. *)
Theorem schema_init_flags (required_names allow_none_names : list string) :
  required cls = PList (PStr <$> required_names) ->
  allow_none cls = PList (PStr <$> allow_none_names) ->
  Forall (fun name => name ∈ dom fields) required_names ->
  Forall (fun name => name ∈ dom fields) allow_none_names ->
  exists sch,
    GenericSchema_init cls fields exclude context many = Success sch
    /\ forall name,
         sch_fields sch !! name =
           (fun f =>
              {| opt_required :=
                   opt_required f || bool_decide (name ∈ required_names);
                 opt_allow_none :=
                   opt_allow_none f || bool_decide (name ∈ allow_none_names) |})
             <$> fields !! name.
Proof.
  intros Hr Ha Hrs Has. unfold GenericSchema_init. rewrite Hr, Ha.
  destruct (mark_attr_declared set_required required_names fields)
    as (fields1 & -> & H1); [reflexivity|exact Hrs|]. cbn [attempt_bind].
  destruct (mark_attr_declared set_allow_none allow_none_names fields1)
    as (fields2 & -> & H2); [reflexivity| |].
  { eapply Forall_impl; [exact Has|]. intros name Hname.
    apply elem_of_dom. apply elem_of_dom in Hname as [f Hf].
    rewrite H1, Hf. simpl. eauto. }
  simpl. eexists. split; [reflexivity|]. intros name. simpl.
  rewrite H2, H1. destruct (fields !! name) as [[r a]|]; [simpl|reflexivity].
  f_equal.
  destruct (bool_decide (name ∈ required_names)),
    (bool_decide (name ∈ allow_none_names)), r, a; reflexivity.
Qed.

(** X19: a name listed in [required] that is not a field of the schema makes
    [GenericSchema.__init__] fail with [KeyError] for the first such name,
    and so does one listed in [allow_none] when [required] lists fields
    only. *)
Theorem schema_init_undeclared (pre : list string) name (post : list string) :
  required cls = PList (PStr <$> (pre ++ name :: post)%list)
  \/ (exists required_names,
        required cls = PList (PStr <$> required_names)
        /\ Forall (fun name => name ∈ dom fields) required_names
        /\ allow_none cls = PList (PStr <$> (pre ++ name :: post)%list)) ->
  Forall (fun name => name ∈ dom fields) pre ->
  name ∉ dom fields ->
  GenericSchema_init cls fields exclude context many =
    Failure (KeyError (PStr name)).
Proof.
  intros [Hr|(required_names & Hr & Hrs & Ha)] Hpre Hname.
  - unfold GenericSchema_init.
    now rewrite Hr, mark_attr_undeclared.
  - unfold GenericSchema_init. rewrite Hr, Ha.
    destruct (mark_attr_declared set_required required_names fields)
      as (fields1 & -> & H1); [reflexivity|exact Hrs|]. cbn [attempt_bind].
    assert (Hdom : forall x, x ∈ dom fields1 <-> x ∈ dom fields).
    { intros x. rewrite !elem_of_dom, H1. unfold is_Some.
      destruct (fields !! x); simpl; split; intros [y Hy]; eauto; discriminate. }
    rewrite mark_attr_undeclared; [reflexivity| |].
    + eapply Forall_impl; [exact Hpre|]. intros x. apply Hdom.
    + now rewrite Hdom.
Qed.

End SchemaInit.

(** ** The component's operations *)

Section CrudFacts.

Context {DB : Type}.
Variable get_by_id : Z -> DB -> attempt instance.
Variable save : instance -> DB -> DB.
Variable delete_instance : instance -> DB -> DB.
Variable save_new : instance -> DB -> instance * DB.
Variable construct : model_class -> pydict -> instance.
Variable load : schema -> pydict -> attempt pydict.
Variable dump : schema -> instance -> pyval.
Variable schema_cls : schema_class.
Variable model : model_class.

(** Without a context the hook leaves the record as it is. *)
Lemma dump_single_bare (sch : schema) (item : instance) :
  dump_single dump sch [] item = Success (dump sch item).
Proof. reflexivity. Qed.

(** X20: an [update_item] that fails, for whatever reason (the schema cannot
    be set up, the data do not validate, the item does not exist, a key names
    no field), leaves the database as it was. *)
Theorem update_item_failure_keeps_database item_id data (db db' : DB) f :
  update_item get_by_id save load dump schema_cls model item_id data db =
    (Failure f, db') ->
  db' = db.
Proof.
  unfold update_item. intros H.
  destruct (new_schema schema_cls []) as [sch|]; simpl in H;
    [|now injection H as _ <-].
  destruct (load sch data) as [serialized|]; simpl in H;
    [|now injection H as _ <-].
  destruct (get_by_id item_id db) as [item|]; simpl in H;
    [|now injection H as _ <-].
  unfold update_instance in H.
  destruct (update_loop model serialized item) as [[e|] item'].
  - now injection H as _ <-.
  - rewrite dump_single_bare in H. discriminate H.
Qed.


(** X22: a [create_item] that fails, for whatever reason, leaves the
    database as it was. *)
Theorem create_item_failure_keeps_database data (db db' : DB) f :
  create_item save_new construct load dump schema_cls data db =
    (Failure f, db') ->
  db' = db.
Proof.
  unfold create_item, make_instance. intros H.
  destruct (new_schema schema_cls []) as [sch|]; simpl in H;
    [|now injection H as _ <-].
  destruct (Meta_model schema_cls) as [m|]; [|now injection H as _ <-].
  destruct (load sch data) as [serialized|]; simpl in H;
    [|now injection H as _ <-].
  destruct (save_new (construct m serialized) db) as [item db1].
  rewrite dump_single_bare in H. discriminate H.
Qed.

(** X23: for a schema class without [Meta.model], [make_instance] and so
    [create_item] fail with [AttributeError] before the data are validated:
    whatever the data are, and whatever [load] would say about them. *)
Theorem create_item_without_model data (db : DB) sch :
  new_schema schema_cls [] = Success sch ->
  Meta_model schema_cls = None ->
  make_instance construct load schema_cls data =
    Failure (PythonError (AttributeError "Missing model class to make instance"))
  /\ create_item save_new construct load dump schema_cls data db =
     (Failure (PythonError
        (AttributeError "Missing model class to make instance")), db).
Proof.
  intros Hsch Hmodel. unfold create_item, make_instance.
  now rewrite Hsch, Hmodel.
Qed.

(** X24: [delete_item] of an item it can fetch deletes the item and then
    saves it; its answer is the serialised item when the component's context
    holds no ['metadata'], but the metadata dict with the item under
    ['items'] when the context holds one (and no truthy ['child']). *)
Theorem delete_item_answer self_context item_id (db : DB) sch item :
  new_schema schema_cls self_context = Success sch ->
  get_by_id item_id db = Success item ->
  exists answer,
    delete_item get_by_id save delete_instance dump schema_cls
      self_context item_id db =
      (answer, save item (delete_instance item db))
    /\ (dict_has "metadata" self_context = false ->
        answer = Success (dump sch item))
    /\ (forall metadata,
          dict_get "metadata" self_context = Some (PDict metadata) ->
          truthy (dict_get_default self_context "child" PNone) = false ->
          answer = Success (PDict (dict_set "items" (dump sch item) metadata))).
Proof.
  intros Hsch Hget. unfold delete_item. rewrite Hsch. cbn [attempt_bind].
  rewrite Hget. eexists. split; [reflexivity|]. split.
  - intros Hm. unfold dump_single, wrap_data. now rewrite Hm.
  - intros metadata Hm Hc. unfold dump_single, wrap_data, dict_has.
    now rewrite Hm, Hc.
Qed.

End CrudFacts.

(** ** The list view *)

(** With an [offset] of 0 nothing is narrowed. *)
Lemma add_metadata_skip q context :
  dict_get_default context "offset" (PInt 1) = PInt 0 ->
  add_metadata q context =
    Returned (q, dict_set "metadata" (PDict
      [ ("count", PInt (count q));
        ("remaining", PInt 0);
        ("offset", PInt 0);
        ("limit", dict_get_default context "limit" (PInt 0));
        ("next", PNone);
        ("previous", PNone);
        ("route_args", dict_get_default context "route_args" (PDict [])) ])
      context).
Proof.
  intros Ho. unfold add_metadata. rewrite Ho. simpl.
  now rewrite andb_false_r.
Qed.

Section ViewFacts.

Variable py_int : string -> option Z.
Variable url_for : string -> string -> pydict -> string.
Variable use_https : bool.
Variable dump_one : instance -> pyval.
Variables (base : query) (endpoint : string) (view_args : pydict).
Variables (args : list (string * string)) (current_user : pyval).

(** [generate_context] either raises [TypeError], for an argument with a
    bound name, or returns the nine-entry context. *)
Lemma generate_context_cases :
  (existsb (fun name => dict_has name (merge_args view_args args)) bound_names
     = true
   /\ generate_context py_int url_for use_https endpoint view_args args
        current_user = Raised TypeError)
  \/ (existsb (fun name => dict_has name (merge_args view_args args)) bound_names
        = false
      /\ exists url,
        generate_context py_int url_for use_https endpoint view_args args
          current_user =
          Returned
            [ ("wrapper", PBool true);
              ("offset", args_get_int py_int "offset" (PInt 0) args);
              ("limit", args_get_int py_int "limit" PNone args);
              ("archived", args_get_bool "archived" args);
              ("next", PStr url);
              ("previous", PStr url);
              ("route_args", PDict (merge_args view_args args));
              ("route_endpoint", PStr endpoint);
              ("current_user", current_user) ]).
Proof.
  unfold generate_context, context_urls.
  destruct (existsb _ bound_names); [left|right]; split; try reflexivity.
  eexists. reflexivity.
Qed.

(** X25: a list request none of whose arguments has a name that
    [context_urls] or [url_for] takes for itself ([route_name], [endpoint],
    [_external], [_scheme], [_method]) and whose query string has no [offset]
    (or one that is not a number, or 0) is never narrowed, whatever its
    [limit]: the body holds every record, [remaining] is 0 and both markers
    are null. *)
Theorem read_many_without_offset :
  Forall (fun name => dict_has name (merge_args view_args args) = false)
    ("_method" :: bound_names) ->
  args_get_int py_int "offset" (PInt 0) args = PInt 0 ->
  read_many py_int url_for use_https dump_one base endpoint view_args args
    current_user =
    Returned (PDict
      [ ("count", PInt (count base));
        ("remaining", PInt 0);
        ("offset", PInt 0);
        ("limit", args_get_int py_int "limit" PNone args);
        ("next", PNone);
        ("previous", PNone);
        ("route_args", PDict (merge_args view_args args));
        ("items", PList (map dump_one (execute base))) ]).
Proof.
  intros Hnames Ho. unfold read_many.
  destruct generate_context_cases as [[Hbound _]|[_ [url ->]]].
  { apply Forall_cons in Hnames as [_ Hnames].
    apply existsb_exists in Hbound as (name & Hin & Hhas).
    rewrite Forall_forall in Hnames. apply list_elem_of_In in Hin.
    rewrite (Hnames name Hin) in Hhas. discriminate Hhas. }
  cbn [bind]. unfold get_items, search.
  match goal with |- context [add_metadata base ?c] => set (context := c) end.
  assert (Hoff : dict_get_default context "offset" (PInt 1) = PInt 0)
    by exact Ho.
  replace (truthy (dict_get_default context "wrapper" PNone)) with true
    by reflexivity.
  rewrite (add_metadata_skip base context Hoff). cbn [bind].
  unfold dump_many, wrap_data, dict_has.
  rewrite dict_get_set_eq, dict_get_default_set_ne by discriminate.
  replace (truthy (dict_get_default context "child" PNone)) with false
    by reflexivity.
  reflexivity.
Qed.

(** X26: whenever the list view answers, the body is the eight-key envelope,
    and its [next] and [previous] markers, when both are set, are the same
    URL. *)
Theorem read_many_markers_equal body :
  read_many py_int url_for use_https dump_one base endpoint view_args args
    current_user = Returned body ->
  exists envelope,
    body = PDict envelope
    /\ dict_keys envelope =
       ["count"; "remaining"; "offset"; "limit"; "next"; "previous";
        "route_args"; "items"]
    /\ forall next previous,
         dict_get "next" envelope = Some next ->
         dict_get "previous" envelope = Some previous ->
         next <> PNone -> previous <> PNone -> next = previous.
Proof.
  unfold read_many.
  destruct generate_context_cases as [[_ ->]|[_ [url ->]]]; [discriminate|].
  cbn [bind]. unfold get_items, search.
  match goal with |- context [add_metadata base ?c] => set (context := c) end.
  replace (truthy (dict_get_default context "wrapper" PNone)) with true
    by reflexivity.
  destruct (add_metadata base context) as [[q' context']|e] eqn:Hadd;
    [|discriminate].
  destruct (add_metadata_returned _ _ _ _ Hadd) as (remaining & prev & ->).
  cbn [bind]. unfold dump_many, wrap_data, dict_has.
  rewrite dict_get_set_eq, dict_get_default_set_ne by discriminate.
  replace (truthy (dict_get_default context "child" PNone)) with false
    by reflexivity.
  cbn. intros H. injection H as <-. eexists. split; [reflexivity|].
  split; [reflexivity|]. cbn. intros next previous Hn Hp Hnn Hpn.
  injection Hn as <-. injection Hp as <-.
  destruct (0 <? remaining), prev; congruence.
Qed.


End ViewFacts.

(** * The further properties at concrete inputs *)

Lemma add_metadata_page_size_witness :
  exists q' context',
    add_metadata three_todos second_page = Returned (q', context')
    /\ Z.of_nat (length (execute q')) <= 1.
Proof.
  apply (add_metadata_page_size three_todos second_page 2 1);
    [reflexivity | reflexivity | lia | lia].
Defined.

Lemma add_metadata_select_page_witness :
  exists q' context' metadata,
    add_metadata (select (q_rows three_todos)) second_page = Returned (q', context')
    /\ dict_get "metadata" context' = Some (PDict metadata)
    /\ execute q' =
       firstn (Z.to_nat 1) (skipn (Z.to_nat (1 * (2 - 1))) (q_rows three_todos))
    /\ dict_get "remaining" metadata =
       Some (PInt (Z.max (Z.of_nat (length (q_rows three_todos)) - 1 * 2) 0)).
Proof.
  apply (add_metadata_select_page (q_rows three_todos) second_page 2 1);
    [reflexivity | reflexivity | lia | lia].
Defined.

Lemma add_metadata_beyond_last_page_witness :
  exists q' context' metadata,
    add_metadata (select (q_rows three_todos))
      [("limit", PInt 1); ("offset", PInt 5)] = Returned (q', context')
    /\ dict_get "metadata" context' = Some (PDict metadata)
    /\ execute q' = []
    /\ dict_get "remaining" metadata = Some (PInt 0)
    /\ dict_get "next" metadata = Some PNone.
Proof.
  apply (add_metadata_beyond_last_page (q_rows three_todos)
           [("limit", PInt 1); ("offset", PInt 5)] 5 1);
    [reflexivity | reflexivity | lia | lia | simpl; lia].
Defined.

Lemma add_metadata_pages_cover_witness :
  flat_map
    (fun page =>
       returned_items
         (add_metadata (select (q_rows three_todos))
            (dict_set "offset" (PInt (Z.of_nat page)) [("limit", PInt 2)])))
    (seq 1 2)
  = q_rows three_todos.
Proof.
  apply (add_metadata_pages_cover (q_rows three_todos) [("limit", PInt 2)] 2 2);
    [reflexivity | lia | simpl; lia].
Defined.

Lemma add_metadata_remaining_bounds_witness :
  exists q' context' metadata remaining,
    add_metadata three_todos second_page = Returned (q', context')
    /\ dict_get "metadata" context' = Some (PDict metadata)
    /\ dict_get "remaining" metadata = Some (PInt remaining)
    /\ 0 <= remaining <= count three_todos.
Proof.
  apply (add_metadata_remaining_bounds three_todos second_page 2 1);
    [reflexivity | reflexivity | lia | lia].
Defined.

Lemma add_metadata_type_error_witness :
  add_metadata three_todos [("offset", PStr "2"); ("limit", PInt 1)] =
    Raised TypeError.
Proof.
  apply (add_metadata_type_error three_todos
           [("offset", PStr "2"); ("limit", PInt 1)]).
  left. exists TypeError. reflexivity.
Defined.

Lemma add_metadata_context_frame_witness :
  exists q' context',
    add_metadata three_todos second_page = Returned (q', context')
    /\ (forall key, key <> "metadata" ->
        dict_get key context' = dict_get key second_page)
    /\ add_metadata three_todos context' = Returned (q', context').
Proof.
  do 2 eexists. split; [reflexivity|].
  apply (add_metadata_context_frame three_todos second_page). reflexivity.
Defined.

Lemma wrap_data_envelope_witness :
  exists envelope context',
    wrap_data stale_context (PList []) = Returned (PDict envelope, context')
    /\ dict_get "items" envelope = Some (PList [])
    /\ (forall key, key <> "items" ->
        dict_get key envelope = dict_get key [("count", PInt 7)])
    /\ dict_get "metadata" context' = Some (PDict envelope)
    /\ (forall key, key <> "metadata" ->
        dict_get key context' = dict_get key stale_context).
Proof.
  apply (wrap_data_envelope stale_context [("count", PInt 7)] (PList []));
    reflexivity.
Defined.

Lemma get_items_wrapper_ignores_arguments_witness :
  get_items todo_dump wrapper_context three_todos [] [] =
  get_items todo_dump wrapper_context three_todos [("q", PStr "x")] stale_context.
Proof.
  apply (get_items_wrapper_ignores_arguments todo_dump wrapper_context
           three_todos [] [("q", PStr "x")] [] stale_context).
  reflexivity.
Defined.

Lemma get_items_child_witness :
  exists q' context_md,
    add_metadata three_todos [("wrapper", PBool true); ("child", PBool true)] =
      Returned (q', context_md)
    /\ get_items todo_dump [("wrapper", PBool true); ("child", PBool true)]
         three_todos [] [] =
       Returned (PList (map todo_dump (execute q')), context_md)
    /\ dict_has "metadata" context_md = true.
Proof.
  do 2 eexists. split; [reflexivity|].
  apply (get_items_child todo_dump [("wrapper", PBool true); ("child", PBool true)]
           three_todos [] []); reflexivity.
Defined.



Lemma strip_data_dict_witness :
  _strip_data ["id"] (PDict [("id", PInt 1); ("text", PStr "a")]) =
    Returned (PDict (filter (fun kv => kv.1 ∉ ["id"])
                       [("id", PInt 1); ("text", PStr "a")]))
  /\ forall key,
       dict_get key (filter (fun kv => kv.1 ∉ ["id"])
                       [("id", PInt 1); ("text", PStr "a")]) =
         if decide (key ∈ ["id"]) then None
         else dict_get key [("id", PInt 1); ("text", PStr "a")].
Proof.
  apply (strip_data_dict ["id"] [("id", PInt 1); ("text", PStr "a")]).
  apply (bool_decide_unpack _). vm_compute. exact I.
Defined.

Lemma for_serialization_mimetype_witness :
  for_serialization TodoSchema
    {| mimetype := "text/plain"; form := []; json := PNone |} =
    Failure (PythonError (AttributeError "Incorrect mimetype for serialization")).
Proof.
  apply (for_serialization_mimetype TodoSchema); simpl; discriminate.
Defined.

Lemma for_serialization_list_body_witness :
  for_serialization StrippingSchema
    {| mimetype := "application/json"; form := [];
       json := PList [PDict [("text", PStr "a")]] |} =
    Failure (PythonError TypeError).
Proof.
  apply (for_serialization_list_body StrippingSchema _ [PDict [("text", PStr "a")]]);
    [reflexivity | reflexivity | simpl; discriminate].
Defined.

Lemma for_serialization_many_witness :
  exists sch req',
    let req := {| mimetype := "application/json"; form := []; json := PList [] |} in
    for_serialization TodoSchema req = Success (sch, req')
    /\ (sch_many sch = true <->
          mimetype req = "application/json"
          /\ exists items, json req = PList items
                           /\ Forall (fun v => is_dict v = true) items)
    /\ sch_context sch =
         PDict [ ("return_dict", PBool true);
                 ("convert_fks", PBool false);
                 ("convert_dates", PBool false) ]
    /\ mimetype req' = mimetype req.
Proof.
  do 2 eexists. split; [reflexivity|].
  apply (for_serialization_many TodoSchema). reflexivity.
Defined.

Lemma schema_init_flags_witness :
  exists sch,
    GenericSchema_init RequiredSchema (declared_fields RequiredSchema)
      (PList []) (PDict []) false = Success sch
    /\ forall name,
         sch_fields sch !! name =
           (fun f =>
              {| opt_required := opt_required f || bool_decide (name ∈ ["text"]);
                 opt_allow_none :=
                   opt_allow_none f || bool_decide (name ∈ @nil string) |})
             <$> declared_fields RequiredSchema !! name.
Proof.
  apply (schema_init_flags RequiredSchema (declared_fields RequiredSchema)
           (PList []) (PDict []) false ["text"] []).
  - reflexivity.
  - reflexivity.
  - constructor; [|constructor]. apply elem_of_dom. eexists. reflexivity.
  - constructor.
Defined.

Lemma schema_init_undeclared_witness :
  GenericSchema_init MisspeltSchema (declared_fields MisspeltSchema)
    (PList []) (PDict []) false = Failure (KeyError (PStr "title")).
Proof.
  apply (schema_init_undeclared MisspeltSchema (declared_fields MisspeltSchema)
           (PList []) (PDict []) false ["text"] "title" []).
  - left. reflexivity.
  - constructor; [|constructor]. apply elem_of_dom. eexists. reflexivity.
  - apply not_elem_of_dom. reflexivity.
Defined.

Lemma update_item_failure_keeps_database_witness :
  update_item table_get table_save todo_load todo_schema_dump TodoSchema TodoModel
    9 [("text", PStr "new")] [todo 1 "old"] =
    (Failure DoesNotExist, [todo 1 "old"])
  /\ [todo 1 "old"] = [todo 1 "old"].
Proof.
  split; [reflexivity|].
  apply (update_item_failure_keeps_database table_get table_save todo_load
           todo_schema_dump TodoSchema TodoModel 9 [("text", PStr "new")]
           [todo 1 "old"] [todo 1 "old"] DoesNotExist).
  reflexivity.
Defined.


Lemma create_item_failure_keeps_database_witness :
  create_item table_insert todo_construct todo_load todo_schema_dump TodoSchema
    [("text", PStr "")] [todo 1 "old"] =
    (Failure (ValidationError (PDict [("text", PList [PStr "Invalid value."])])),
     [todo 1 "old"])
  /\ [todo 1 "old"] = [todo 1 "old"].
Proof.
  split; [reflexivity|].
  apply (create_item_failure_keeps_database table_insert todo_construct
           todo_load todo_schema_dump TodoSchema [("text", PStr "")] [todo 1 "old"]
           [todo 1 "old"]
           (ValidationError (PDict [("text", PList [PStr "Invalid value."])]))).
  reflexivity.
Defined.

Lemma create_item_without_model_witness :
  make_instance todo_construct todo_load RequiredSchema [("text", PStr "Something")] =
    Failure (PythonError (AttributeError "Missing model class to make instance"))
  /\ create_item table_insert todo_construct todo_load todo_schema_dump RequiredSchema
       [("text", PStr "Something")] [] =
     (Failure (PythonError
        (AttributeError "Missing model class to make instance")), []).
Proof.
  eapply (create_item_without_model table_insert todo_construct todo_load
            todo_schema_dump RequiredSchema [("text", PStr "Something")] []);
    reflexivity.
Defined.

Lemma delete_item_answer_witness :
  exists answer,
    delete_item table_get table_save table_delete todo_schema_dump TodoSchema
      stale_context 1 [todo 1 "old"; todo 2 "other"] =
      (answer, table_save (todo 1 "old")
                 (table_delete (todo 1 "old") [todo 1 "old"; todo 2 "other"]))
    /\ (dict_has "metadata" stale_context = false ->
        answer = Success (todo_dump (todo 1 "old")))
    /\ (forall metadata,
          dict_get "metadata" stale_context = Some (PDict metadata) ->
          truthy (dict_get_default stale_context "child" PNone) = false ->
          answer =
            Success (PDict (dict_set "items" (todo_dump (todo 1 "old")) metadata))).
Proof.
  eapply (delete_item_answer table_get table_save table_delete todo_schema_dump
            TodoSchema stale_context 1 [todo 1 "old"; todo 2 "other"]);
    reflexivity.
Defined.

(** After the example's [delete_item], the item is gone from the table. *)
Example delete_item_removes :
  snd (delete_item table_get table_save table_delete todo_schema_dump TodoSchema
         [] 1 [todo 1 "old"; todo 2 "other"]) = [todo 2 "other"].
Proof. reflexivity. Qed.

Lemma read_many_without_offset_witness :
  read_many example_int example_url false todo_dump three_todos
    "TodoApiView:read_many" [] [("limit", "1")] PNone =
    Returned (PDict
      [ ("count", PInt (count three_todos));
        ("remaining", PInt 0);
        ("offset", PInt 0);
        ("limit", args_get_int example_int "limit" PNone [("limit", "1")]);
        ("next", PNone);
        ("previous", PNone);
        ("route_args", PDict (merge_args [] [("limit", "1")]));
        ("items", PList (map todo_dump (execute three_todos))) ]).
Proof.
  apply (read_many_without_offset example_int example_url false todo_dump
           three_todos "TodoApiView:read_many" [] [("limit", "1")] PNone).
  - repeat constructor.
  - reflexivity.
Defined.

Lemma read_many_markers_equal_witness :
  exists body envelope,
    read_many example_int example_url false todo_dump three_todos
      "TodoApiView:read_many" [] [("limit", "1"); ("offset", "2")] PNone =
      Returned body
    /\ body = PDict envelope
    /\ dict_keys envelope =
       ["count"; "remaining"; "offset"; "limit"; "next"; "previous";
        "route_args"; "items"]
    /\ forall next previous,
         dict_get "next" envelope = Some next ->
         dict_get "previous" envelope = Some previous ->
         next <> PNone -> previous <> PNone -> next = previous.
Proof.
  eexists.
  destruct (read_many_markers_equal example_int example_url false todo_dump
              three_todos "TodoApiView:read_many" []
              [("limit", "1"); ("offset", "2")] PNone _ eq_refl)
    as (envelope & H). exists envelope. split; [reflexivity|exact H].
Defined.

